(** * IDV-RouteMAP: the activity normalisation scripts

    A shallow embedding of [normalise_strava.py] and [preprocess_tcx.py],
    the two scripts that turn raw TCX / GPX / FIT / JSON activity files
    into [activity_index.json] and [segments.geojson], and the properties
    of the specification proved (or refuted) against them.

    Conventions of the embedding.
    - Python [str] values are Rocq byte strings; the case mappings
      ([lower], [title]) and [strip] are Python's on ASCII code points,
      and leave every other byte unchanged.
    - Python [int] is [Z].  Python [float] is modelled by the exact
      rational [Q]: the arithmetic of the scripts is performed without
      binary64 rounding error, and [round(x, 1)] is rounding to the
      nearest tenth, ties to even.  NaN and the infinities are outside
      the model.
    - A raised exception is the [Raise] branch of [result]; a Python
      [dict] with string keys is a [gmap string pyval]. *)

From Stdlib Require Import ZArith QArith Qround Ascii String List Lia Lqa.
From Stdlib Require Import Floats.PrimFloat Numbers.Cyclic.Int63.Uint63.
From stdpp Require Import gmap strings list pretty.

Local Open Scope Z_scope.
Local Open Scope string_scope.

(** ** Python builtins used by the scripts *)

Module Py.

(** An exception: its class name and [str(e)]. *)
Inductive exn := Exn (cls msg : string).

Definition exn_msg (e : exn) : string := let 'Exn _ m := e in m.

Inductive result (A : Type) :=
| Ok (a : A)
| Raise (e : exn).
Arguments Ok {A} a.
Arguments Raise {A} e.

Definition bind {A B} (r : result A) (k : A -> result B) : result B :=
  match r with
  | Ok a => k a
  | Raise e => Raise e
  end.

(** [mapM f l]: the list comprehension [[f(x) for x in l]], which stops
    at the first element on which [f] raises. *)
Fixpoint mapM {A B} (f : A -> result B) (l : list A) : result (list B) :=
  match l with
  | [] => Ok []
  | x :: l' =>
      bind (f x) (fun y => bind (mapM f l') (fun ys => Ok (y :: ys)))
  end.

(** [foldM step l st]: a [for] loop over [l] threading the loop state. *)
Fixpoint foldM {A S} (step : S -> A -> result S) (l : list A) (st : S)
  : result S :=
  match l with
  | [] => Ok st
  | x :: l' => bind (step st x) (foldM step l')
  end.

(** *** Characters and strings *)

Definition is_upper (c : ascii) : bool :=
  let n := N_of_ascii c in ((65 <=? n) && (n <=? 90))%N.

Definition is_lower (c : ascii) : bool :=
  let n := N_of_ascii c in ((97 <=? n) && (n <=? 122))%N.

Definition is_cased (c : ascii) : bool := is_upper c || is_lower c.

(** [str.isspace] on ASCII: TAB..CR, FS..US and the space. *)
Definition is_space (c : ascii) : bool :=
  let n := N_of_ascii c in
  (((9 <=? n) && (n <=? 13)) || ((28 <=? n) && (n <=? 32)))%N.

Definition to_lower (c : ascii) : ascii :=
  if is_upper c then ascii_of_N (N_of_ascii c + 32) else c.

Definition to_upper (c : ascii) : ascii :=
  if is_lower c then ascii_of_N (N_of_ascii c - 32) else c.

(** [s.lower()] *)
Fixpoint lower (s : string) : string :=
  match s with
  | EmptyString => EmptyString
  | String c r => String (to_lower c) (lower r)
  end.

Fixpoint lstrip (s : string) : string :=
  match s with
  | EmptyString => EmptyString
  | String c r => if is_space c then lstrip r else s
  end.

Fixpoint rstrip (s : string) : string :=
  match s with
  | EmptyString => EmptyString
  | String c r =>
      match rstrip r with
      | EmptyString => if is_space c then EmptyString else String c EmptyString
      | r' => String c r'
      end
  end.

(** [s.strip()] *)
Definition strip (s : string) : string := rstrip (lstrip s).

(** [s.title()]: a cased character is upper-cased when the character
    before it is not cased, and lower-cased otherwise. *)
Fixpoint title_from (previous_is_cased : bool) (s : string) : string :=
  match s with
  | EmptyString => EmptyString
  | String c r =>
      String (if previous_is_cased then to_lower c else to_upper c)
             (title_from (is_cased c) r)
  end.

Definition title (s : string) : string := title_from false s.

(** [x in (a, b, ...)] for strings. *)
Definition str_in (x : string) (l : list string) : bool :=
  existsb (String.eqb x) l.

(** [s.endswith(suffix)] *)
Definition endswith (s suffix : string) : bool :=
  let n := String.length s in
  let m := String.length suffix in
  (m <=? n)%nat && String.eqb (substring (n - m) m s) suffix.

(** [sub in s] *)
Fixpoint contains (sub s : string) : bool :=
  String.prefix sub s ||
  match s with
  | EmptyString => false
  | String _ r => contains sub r
  end.

(** [os.path.basename]: what follows the last slash. *)
Fixpoint basename_from (acc s : string) : string :=
  match s with
  | EmptyString => acc
  | String c r =>
      if Ascii.eqb c "/"%char then basename_from EmptyString r
      else basename_from (acc +:+ String c EmptyString) r
  end.

Definition basename (p : string) : string := basename_from EmptyString p.

(** [os.path.join(d, name)] for a relative [name]. *)
Definition path_join (d name : string) : string := d +:+ "/" +:+ name.

(** *** Numbers *)

Definition Qltb (x y : Q) : bool := negb (Qle_bool y x).

(** Truth value of a number: non-zero. *)
Definition Qtruthy (x : Q) : bool := negb (Qeq_bool x 0).
Definition Ztruthy (x : Z) : bool := negb (x =? 0)%Z.

Definition round_half_even (q : Q) : Z :=
  let f := Qfloor q in
  match (q - inject_Z f ?= 1 # 2)%Q with
  | Lt => f
  | Gt => f + 1
  | Eq => if Z.even f then f else f + 1
  end.

(** [round(x, 1)] *)
Definition round1 (x : Q) : Q :=
  Qred (inject_Z (round_half_even (x * 10)) / 10).

(** [int(x)] of a float: truncation toward zero. *)
Definition Qtrunc (x : Q) : Z := Z.quot (Qnum x) (Zpos (Qden x)).

(** [sum] of a list of floats and of ints: a left fold from [0]. *)
Definition Qsum (l : list Q) : Q := fold_left Qplus l 0%Q.
Definition Zsum (l : list Z) : Z := fold_left Z.add l 0.

(** [max] of a non-empty list of ints. *)
Definition Zmax_list (x : Z) (l : list Z) : Z := fold_left Z.max l x.

(** *** Dynamically typed values (what [json.load] returns, and the
    values of the metadata dictionaries) *)

#[local] Set Warnings "-register-all".
Inductive pyval :=
| VNone
| VBool (b : bool)
| VInt (z : Z)
| VFloat (q : Q)
| VStr (s : string)
| VList (l : list pyval)
| VDict (items : list (string * pyval)).

Definition truthy (v : pyval) : bool :=
  match v with
  | VNone => false
  | VBool b => b
  | VInt z => Ztruthy z
  | VFloat q => Qtruthy q
  | VStr s => negb (String.eqb s "")
  | VList l => match l with [] => false | _ => true end
  | VDict l => match l with [] => false | _ => true end
  end.

End Py.

Import Py.

#[global] Instance result_bind : MBind result := fun A B k r => Py.bind r k.

(** ** The files of the [raw/] directory

    A file is modelled by what the parsing libraries ([xml.etree],
    [gpxpy], [fitparse], [json]) make of it.  The TCX view keeps, for
    every lap and trackpoint, exactly the attributes and child elements
    the two scripts look up; by the TCX schema the trackpoints of a
    document are those of its laps, in document order. *)

Module Raw.

(** The text of an XML attribute or element, by what [float] and [int]
    make of it. *)
Inductive text :=
| TInt (z : Z)        (* an integer literal *)
| TDec (q : Q)        (* a decimal literal with a fraction or an exponent *)
| TOther (s : string). (* anything else, the empty text included *)


(** [float(t)] *)
Definition py_float (t : text) : result Q :=
  match t with
  | TInt z => Ok (inject_Z z)
  | TDec q => Ok q
  | TOther s =>
      Raise (Exn "ValueError" ("could not convert string to float: '" +:+ s +:+ "'"))
  end.

(** [int(t)] *)
Definition py_int (t : text) : result Z :=
  match t with
  | TInt z => Ok z
  | TDec _ => Raise (Exn "ValueError" "invalid literal for int() with base 10")
  | TOther s =>
      Raise (Exn "ValueError" ("invalid literal for int() with base 10: '" +:+ s +:+ "'"))
  end.

(** Truth value of a text: non-empty. *)
Definition text_truthy (t : text) : bool :=
  match t with
  | TOther s => negb (String.eqb s "")
  | _ => true
  end.

Record Position := {
  LatitudeDegrees : option text;
  LongitudeDegrees : option text
}.

Record Trackpoint := {
  tp_Time : option string;
  tp_Position : option Position;
  tp_AltitudeMeters : option text;
  tp_HeartRateBpm : option text;     (* HeartRateBpm/Value *)
  tp_Cadence : option text
}.

Record Lap := {
  lap_StartTime : option string;             (* attribute *)
  lap_attr_TotalTimeSeconds : option text;   (* attribute *)
  lap_attr_DistanceMeters : option text;     (* attribute *)
  lap_TotalTimeSeconds : option text;        (* child element *)
  lap_DistanceMeters : option text;          (* child element *)
  lap_Calories : option text;                (* child element *)
  lap_AverageHeartRateBpm : option text;     (* AverageHeartRateBpm/Value *)
  lap_MaximumHeartRateBpm : option text;     (* MaximumHeartRateBpm/Value *)
  lap_Trackpoints : list Trackpoint
}.

(** [Activity]: [None] when the document has no [Activity] element,
    [Some a] with [a] its [Sport] attribute otherwise. *)
Record TcxDoc := {
  Activity : option (option string);
  Laps : list Lap
}.

Definition Trackpoints (d : TcxDoc) : list Trackpoint :=
  flat_map lap_Trackpoints (Laps d).

(** A GPX point; [gp_time] is [p.time.isoformat()] when the point has a
    time. *)
Record GpxPoint := {
  longitude : Q;
  latitude : Q;
  gp_time : option string
}.

(** Tracks of segments of points, and the value of [gpx.length_2d()],
    which [gpxpy] computes. *)
Record GpxDoc := {
  tracks : list (list (list GpxPoint));
  length_2d : Q
}.

(** The values of a FIT [record] message, typed by the FIT profile;
    [timestamp] is [ts.isoformat()]. *)
Record RecordMsg := {
  position_lat : option Z;
  position_long : option Z;
  timestamp : option string;
  distance : option Q;
  heart_rate : option Z;
  enhanced_altitude : option Q;
  altitude : option Q;
  cadence : option Z
}.

Record SessionMsg := {
  sport : option string;
  total_elapsed_time : option Q;
  total_calories : option Z
}.

Record FitFile := {
  records : list RecordMsg;
  sessions : list SessionMsg
}.

Inductive content :=
| Tcx (d : TcxDoc)
| Gpx (g : GpxDoc)
| Fit (gzipped : bool) (f : FitFile)
| Json (v : pyval)
| Garbage.

(** [ET.parse(path).getroot()] seen through the TCX lookups: any
    well-formed XML parses, and one that is not TCX has no [Activity]
    and no [Lap]. *)
Definition ET_parse (c : content) : result TcxDoc :=
  match c with
  | Tcx d => Ok d
  | Gpx _ => Ok {| Activity := None; Laps := [] |}
  | _ => Raise (Exn "ParseError" "not well-formed (invalid token)")
  end.

End Raw.

Import Raw.

(** ** [normalise_strava.py] *)

Module NormaliseStrava.

Definition RAW_DIR := "raw".
Definition OUT_INDEX := "activity_index.json".
Definition OUT_GEOJSON := "segments.geojson".

(** [normalize_sport(raw_sport)] on its intended argument type, an
    optional string.  [(raw_sport or "")] is the string itself unless it
    is [None] or empty. *)
Definition normalize_sport (raw_sport : option string) : string :=
  let s := lower (strip (default "" raw_sport)) in
  if str_in s ["cycling"; "bike"; "biking"] then "Biking"
  else if str_in s ["running"] then "Running"
  else match raw_sport with
       | Some r => if String.eqb r "" then "Unknown" else title r
       | None => "Unknown"
       end.

(** [normalize_sport] applied to a dynamically typed value: a falsy
    value goes the way of [None], and [.strip()] on a truthy value that
    is not a string raises. *)
Definition normalize_sport_val (v : pyval) : result string :=
  match v with
  | VStr r => Ok (normalize_sport (Some r))
  | _ =>
      if truthy v
      then Raise (Exn "AttributeError" "object has no attribute 'strip'")
      else Ok (normalize_sport None)
  end.

Abbreviation Meta := (gmap string pyval).
Abbreviation Points := (list (Q * Q)).

Definition opt_str (o : option string) : pyval := from_option VStr VNone o.
Definition opt_int (o : option Z) : pyval := from_option VInt VNone o.

(** [d.get(k)] and [d[k]] on a key that may hold [None]. *)
Definition get (d : Meta) (k : string) : pyval := default VNone (d !! k).

(** The number held by a value, for arithmetic behind a truthiness
    guard. *)
Definition num (v : pyval) : Q :=
  match v with
  | VInt z => inject_Z z
  | VFloat q => q
  | _ => 0
  end.

(** [el.find(tag).text] *)
Definition find_text (o : option text) : result text :=
  match o with
  | Some t => Ok t
  | None => Raise (Exn "AttributeError" "'NoneType' object has no attribute 'text'")
  end.

(** *** [parse_tcx] *)

(** One round of the running elevation gain: [e] is the altitude just
    read. *)
Definition climb (prev_elev : option Q) (elev_gain e : Q) : Q :=
  match prev_elev with
  | Some p => if Qltb p e then (elev_gain + (e - p))%Q else elev_gain
  | None => elev_gain
  end.

(** The body of the trackpoint loop, on the loop variables
    [(pts, prev_elev, elev_gain)]. *)
Definition trackpoint_step (st : Points * option Q * Q) (tp : Trackpoint)
  : result (Points * option Q * Q) :=
  let '(pts, prev_elev, elev_gain) := st in
  match tp_Position tp, tp_Time tp with
  | Some pos, Some _ =>
      lat ← find_text (LatitudeDegrees pos) ≫= py_float;
      lon ← find_text (LongitudeDegrees pos) ≫= py_float;
      let pts := (pts ++ [(lon, lat)])%list in
      match tp_AltitudeMeters tp with
      | Some ele =>
          e ← py_float ele;
          Ok (pts, Some e, climb prev_elev elev_gain e)
      | None => Ok (pts, prev_elev, elev_gain)
      end
  | _, _ => Ok st
  end.

Definition parse_tcx (path : string) (c : content) : result (Meta * Points) :=
  root ← ET_parse c;
  raw_sport ← match Activity root with
              | Some a => Ok (default "Unknown" a)
              | None =>
                  Raise (Exn "AttributeError" "'NoneType' object has no attribute 'get'")
              end;
  let meta0 : Meta :=
    <["sport" := VStr (normalize_sport (Some raw_sport))]>
      (<["activityId" := VStr (basename path)]> ∅) in
  let laps := Laps root in
  times ← mapM (fun l => py_float (default (TInt 0) (lap_attr_TotalTimeSeconds l))) laps;
  let total_time := Qsum times in
  dists ← mapM (fun l => py_float (default (TInt 0) (lap_attr_DistanceMeters l))) laps;
  let distance := Qsum dists in
  cals ← mapM (fun l => py_int (default (TInt 0) (lap_Calories l))) laps;
  let calories := Zsum cals in
  avg_hrs ← mapM py_int (omap lap_AverageHeartRateBpm laps);
  max_hrs ← mapM py_int (omap lap_MaximumHeartRateBpm laps);
  let avg_hr :=
    match avg_hrs with
    | [] => None
    | _ => Some (inject_Z (Zsum avg_hrs) / inject_Z (Z.of_nat (length avg_hrs)))%Q
    end in
  let max_hr :=
    match max_hrs with
    | [] => None
    | h :: hs => Some (Zmax_list h hs)
    end in
  '(pts, _, elev_gain) ← foldM trackpoint_step (Trackpoints root) ([], None, 0%Q);
  let avg_pace_s :=
    if Qtruthy distance then Some (total_time / (distance / 1000))%Q else None in
  lap0 ← match laps with
         | l :: _ => Ok l
         | [] => Raise (Exn "IndexError" "list index out of range")
         end;
  Ok (<["avg_pace_s" :=
          match avg_pace_s with
          | Some p => if Qtruthy p then VFloat (round1 p) else VNone
          | None => VNone
          end]>
     (<["elevation_gain_m" := VFloat (round1 elev_gain)]>
     (<["max_hr" := opt_int max_hr]>
     (<["avg_hr" :=
          match avg_hr with
          | Some a => if Qtruthy a then VFloat (round1 a) else VNone
          | None => VNone
          end]>
     (<["calories" := VInt calories]>
     (<["distance_m" := VFloat distance]>
     (<["duration_s" := VFloat total_time]>
     (<["start_time" := opt_str (lap_StartTime lap0)]> meta0))))))),
      pts).

(** *** [parse_gpx] *)

(** [gpxpy.parse] of the decoded bytes. *)
Definition gpx_parse (c : content) : result GpxDoc :=
  match c with
  | Gpx g => Ok g
  | _ => Raise (Exn "GPXException" "Error parsing XML")
  end.

Definition parse_gpx (path : string) (c : content) : result (Meta * Points) :=
  gpx ← gpx_parse c;
  let pts :=
    flat_map (fun tr =>
      flat_map (fun seg => map (fun p => (longitude p, latitude p)) seg) tr)
      (tracks gpx) in
  p0 ← match tracks gpx with
       | ((p :: _) :: _) :: _ => Ok p
       | _ => Raise (Exn "IndexError" "list index out of range")
       end;
  start ← match gp_time p0 with
          | Some t => Ok t
          | None =>
              Raise (Exn "AttributeError" "'NoneType' object has no attribute 'isoformat'")
          end;
  let distance := length_2d gpx in
  let raw_sport := if contains "run" (lower path) then "Running" else "Biking" in
  Ok (<["avg_pace_s" := VNone]>
     (<["elevation_gain_m" := VNone]>
     (<["max_hr" := VNone]>
     (<["avg_hr" := VNone]>
     (<["calories" := VNone]>
     (<["distance_m" := VFloat distance]>
     (<["duration_s" := VNone]>
     (<["start_time" := VStr start]>
     (<["sport" := VStr (normalize_sport (Some raw_sport))]>
     (<["activityId" := VStr (basename path)]> ∅))))))))),
      pts).

(** *** [parse_fit] *)

(** [FitFile(fobj)] on [gzip.open(path)] or [open(path)]. *)
Definition FitFile_open (compressed : bool) (c : content) : result FitFile :=
  match c with
  | Fit gz f =>
      if Bool.eqb gz compressed then Ok f
      else if compressed then Raise (Exn "BadGzipFile" "Not a gzipped file")
      else Raise (Exn "FitHeaderError" "Invalid .FIT File Header")
  | _ =>
      if compressed then Raise (Exn "BadGzipFile" "Not a gzipped file")
      else Raise (Exn "FitHeaderError" "Invalid .FIT File Header")
  end.

(** [v * (180/(2**31))] *)
Definition degrees (v : Z) : Q := (inject_Z v * (180 / inject_Z (2 ^ 31)))%Q.

(** [a or b] on optional numbers. *)
Definition or_else (a b : option Q) : option Q :=
  match a with
  | Some x => if Qtruthy x then a else b
  | None => b
  end.

Definition fit_keys : list string :=
  ["activityId"; "sport"; "start_time"; "duration_s"; "distance_m";
   "calories"; "avg_hr"; "max_hr"; "elevation_gain_m"; "avg_pace_s"; "cadence"].

(** The body of the loop over the [record] messages, on
    [(pts, meta, hr_samples, prev_elev, elev_gain)]. *)
Definition record_step (st : Points * Meta * list Z * option Q * Q)
  (vals : RecordMsg) : Points * Meta * list Z * option Q * Q :=
  let '(pts, meta, hr_samples, prev_elev, elev_gain) := st in
  let pts :=
    match position_lat vals, position_long vals with
    | Some lat, Some lon =>
        if Ztruthy lat && Ztruthy lon
        then (pts ++ [(degrees lon, degrees lat)])%list
        else pts
    | _, _ => pts
    end in
  let meta :=
    match timestamp vals with
    | Some ts =>
        if negb (truthy (get meta "start_time"))
        then <["start_time" := VStr ts]> meta else meta
    | None => meta
    end in
  let meta :=
    match distance vals with
    | Some d => if Qtruthy d then <["distance_m" := VFloat d]> meta else meta
    | None => meta
    end in
  let hr_samples :=
    match heart_rate vals with
    | Some h => if Ztruthy h then (hr_samples ++ [h])%list else hr_samples
    | None => hr_samples
    end in
  let ele := or_else (enhanced_altitude vals) (altitude vals) in
  let '(prev_elev, elev_gain) :=
    match ele with
    | Some e => (Some e, climb prev_elev elev_gain e)
    | None => (prev_elev, elev_gain)
    end in
  let meta :=
    match cadence vals with
    | Some k => if Ztruthy k then <["cadence" := VInt k]> meta else meta
    | None => meta
    end in
  (pts, meta, hr_samples, prev_elev, elev_gain).

(** The body of the loop over the [session] messages. *)
Definition session_step (meta : Meta) (v : SessionMsg) : Meta :=
  let meta :=
    match sport v with
    | Some s =>
        if truthy (VStr s) && negb (truthy (get meta "sport"))
        then <["sport" := VStr (normalize_sport (Some s))]> meta else meta
    | None => meta
    end in
  let meta :=
    match total_elapsed_time v with
    | Some t =>
        if Qtruthy t && negb (truthy (get meta "duration_s"))
        then <["duration_s" := VFloat t]> meta else meta
    | None => meta
    end in
  match total_calories v with
  | Some k =>
      if Ztruthy k && negb (truthy (get meta "calories"))
      then <["calories" := VInt k]> meta else meta
  | None => meta
  end.

Definition parse_fit (path : string) (compressed : bool) (c : content)
  : result (Meta * Points) :=
  fit ← FitFile_open compressed c;
  let meta : Meta :=
    <["activityId" := VStr (basename path)]>
      (fold_left (fun m k => <[k := VNone]> m) fit_keys ∅) in
  let '(pts, meta, hr_samples, _, elev_gain) :=
    fold_left record_step (records fit) ([], meta, [], None, 0%Q) in
  let meta := fold_left session_step (sessions fit) meta in
  let meta :=
    match hr_samples with
    | h :: hs =>
        <["max_hr" := VInt (Zmax_list h hs)]>
        (<["avg_hr" :=
             VFloat (round1 (inject_Z (Zsum hr_samples)
                             / inject_Z (Z.of_nat (length hr_samples))))]> meta)
    | [] => meta
    end in
  let meta :=
    if Qtruthy elev_gain
    then <["elevation_gain_m" := VFloat (round1 elev_gain)]> meta else meta in
  let meta :=
    if truthy (get meta "distance_m") && truthy (get meta "duration_s")
    then <["avg_pace_s" :=
             VFloat (round1 (num (get meta "duration_s")
                             / (num (get meta "distance_m") / 1000)))]> meta
    else meta in
  Ok (meta, pts).

(** *** [load_json_meta] *)

Definition json_load (c : content) : result pyval :=
  match c with
  | Json v => Ok v
  | _ => Raise (Exn "JSONDecodeError" "Expecting value: line 1 column 1 (char 0)")
  end.

(** The dictionary of a JSON object: of two equal keys the later wins. *)
Definition dict_of (items : list (string * pyval)) : Meta :=
  fold_left (fun m kv => <[kv.1 := kv.2]> m) items ∅.

(** [d.setdefault(k, v)] *)
Definition setdefault (k : string) (v : pyval) (d : Meta) : Meta :=
  match d !! k with
  | Some _ => d
  | None => <[k := v]> d
  end.

Definition json_defaults : list string :=
  ["duration_s"; "distance_m"; "calories";
   "avg_hr"; "max_hr"; "elevation_gain_m";
   "avg_pace_s"; "cadence"].

Definition load_json_meta (path : string) (c : content)
  : result (Meta * option Points) :=
  data ← json_load c;
  meta ← match data with
         | VDict items => Ok (dict_of items)
         | _ => Raise (Exn "TypeError" "object is not a mapping")
         end;
  sp ← normalize_sport_val (get meta "sport");
  let meta := <["sport" := VStr sp]> meta in
  let meta := fold_left (fun m k => setdefault k VNone m) json_defaults meta in
  Ok (meta, None).

(** *** The batch loop of the script *)

Record Feature := {
  coordinates : Points;       (* of the LineString geometry *)
  properties : Meta
}.

Record state := {
  features : list Feature;
  index : list Meta;
  stdout : list string
}.

Definition with_points (r : result (Meta * Points))
  : result (Meta * option Points) :=
  '(m, pts) ← r; Ok (m, Some pts).

(** The dispatch on the file name; [None] is the [else: continue]. *)
Definition extract (fname : string) (c : content)
  : option (result (Meta * option Points)) :=
  let lower := lower fname in
  let path := path_join RAW_DIR fname in
  if endswith lower ".tcx" then Some (with_points (parse_tcx path c))
  else if endswith lower ".gpx" then Some (with_points (parse_gpx path c))
  else if endswith lower ".fit" then Some (with_points (parse_fit path false c))
  else if endswith lower ".fit.gz" then Some (with_points (parse_fit path true c))
  else if endswith lower ".json" then Some (load_json_meta path c)
  else None.

(** Truth value of [pts]: neither [None] nor empty. *)
Definition has_points (pts : option Points) : bool :=
  match pts with
  | Some (_ :: _) => true
  | _ => false
  end.

(** The body of the loop over [os.listdir(RAW_DIR)]. *)
Definition step (st : state) (file : string * content) : state :=
  let '(fname, c) := file in
  match extract fname c with
  | None => st
  | Some (Ok (m, pts)) =>
      {| index := index st ++ [m];
         features :=
           if has_points pts
           then features st ++ [{| coordinates := default [] pts; properties := m |}]
           else features st;
         stdout := stdout st |}%list
  | Some (Raise e) =>
      {| index := index st;
         features := features st;
         stdout := (stdout st ++ ["Failed to parse " +:+ fname +:+ ": " +:+ exn_msg e])%list |}
  end.

Inductive artifact :=
| IndexJson (records : list Meta)
| FeatureCollection (features : list Feature).

(** What a run leaves behind: the files written and the lines printed. *)
Record outcome := {
  written : gmap string artifact;
  printed : list string
}.

(** The script, run on the listing of [raw/] (file names with their
    contents, in enumeration order). *)
Definition main (raw : list (string * content)) : outcome :=
  let st := fold_left step raw {| features := []; index := []; stdout := [] |} in
  let fs := <[OUT_INDEX := IndexJson (index st)]> (∅ : gmap string artifact) in
  let fs := <[OUT_GEOJSON := FeatureCollection (features st)]> fs in
  {| written := fs;
     printed :=
       (stdout st ++
        ["Wrote " +:+ pretty (length (index st)) +:+ " metadata entries and "
         +:+ pretty (length (features st)) +:+ " geo features."])%list |}.

End NormaliseStrava.

(** ** [preprocess_tcx.py] *)

Module PreprocessTcx.

(** [Path.stem]: the name without its last suffix. *)
Fixpoint rfind_dot (s : string) : option nat :=
  match s with
  | EmptyString => None
  | String c r =>
      match rfind_dot r with
      | Some i => Some (S i)
      | None => if Ascii.eqb c "."%char then Some 0%nat else None
      end
  end.

Definition stem (name : string) : string :=
  match rfind_dot name with
  | Some i =>
      if ((0 <? i) && (i <? String.length name - 1))%nat
      then substring 0 i name else name
  | None => name
  end.

(** The dictionary [parse_tcx] returns: [fields] are its keys other
    than ['coordinates']. *)
Record Meta := {
  activityId : string;
  start_time : option string;
  sport : string;
  distance_m : Q;
  duration_s : Q;
  avg_hr : option Z;
  max_hr : option Z;
  avg_pace_s : option Q;
  elevation_gain_m : option Q;
  cadence : option Z;
  calories : Q
}.

Record Data := {
  fields : Meta;
  coordinates : list (Q * Q)
}.

(** [np.diff] *)
Definition diff (l : list Q) : list Q :=
  zip_with (fun a b => (b - a)%Q) l (tail l).

(** [int(np.mean(l))] of a non-empty list of ints. *)
Definition int_mean (l : list Z) : Z :=
  Qtrunc (inject_Z (Zsum l) / inject_Z (Z.of_nat (length l))).

(** [findtext] of an optional child read when it is non-empty. *)
Definition read_if {A} (o : option text) (conv : text -> result A)
  (l : list A) : result (list A) :=
  match o with
  | Some t => if text_truthy t then (x ← conv t; Ok (l ++ [x])%list) else Ok l
  | None => Ok l
  end.

(** The body of the trackpoint loop, on [(coords, hrs, alts, cads)]. *)
Definition trackpoint_step
  (st : list (Q * Q) * list Z * list Q * list Z) (tp : Trackpoint)
  : result (list (Q * Q) * list Z * list Q * list Z) :=
  let '(coords, hrs, alts, cads) := st in
  let lat := tp_Position tp ≫= LatitudeDegrees in
  let lon := tp_Position tp ≫= LongitudeDegrees in
  match lat, lon with
  | Some lat, Some lon =>
      if text_truthy lat && text_truthy lon then
        x ← py_float lon;
        y ← py_float lat;
        let coords := (coords ++ [(x, y)])%list in
        hrs ← read_if (tp_HeartRateBpm tp) py_int hrs;
        alts ← read_if (tp_AltitudeMeters tp) py_float alts;
        cads ← read_if (tp_Cadence tp) py_int cads;
        Ok (coords, hrs, alts, cads)
      else Ok st
  | _, _ => Ok st
  end.

(** The loop variables of [parse_tcx]. *)
Record acc := {
  samples : list (Q * Q) * list Z * list Q * list Z;
  total_dist : Q;
  total_sec : Q;
  total_cal : Q;
  first_start : option string
}.

(** The body of the lap loop. *)
Definition lap_step (a : acc) (lap : Lap) : result acc :=
  let start_time :=
    match first_start a with
    | None => lap_StartTime lap
    | Some t => Some t
    end in
  d ← py_float (default (TInt 0) (lap_DistanceMeters lap));
  t ← py_float (default (TInt 0) (lap_TotalTimeSeconds lap));
  k ← py_float (default (TInt 0) (lap_Calories lap));
  smp ← foldM trackpoint_step (lap_Trackpoints lap) (samples a);
  Ok {| samples := smp;
        total_dist := (total_dist a + d)%Q;
        total_sec := (total_sec a + t)%Q;
        total_cal := (total_cal a + k)%Q;
        first_start := start_time |}.

Definition parse_tcx (file_name : string) (c : content) : result Data :=
  root ← ET_parse c;
  let sport :=
    match Activity root with
    | Some a => default "Other" a
    | None => "Other"
    end in
  a ← foldM lap_step (Laps root)
        {| samples := ([], [], [], []);
           total_dist := 0; total_sec := 0; total_cal := 0;
           first_start := None |};
  let '(coords, hrs, alts, cads) := samples a in
  let avg_hr := match hrs with [] => None | _ => Some (int_mean hrs) end in
  let max_hr := match hrs with [] => None | h :: hs => Some (Zmax_list h hs) end in
  let elevation_gain :=
    if (1 <? length alts)%nat
    then Some (Qsum (filter (fun d => Qltb 0 d) (diff alts)))
    else None in
  let avg_cadence := match cads with [] => None | _ => Some (int_mean cads) end in
  let avg_pace_s :=
    if Qltb 0 (total_dist a)
    then Some (total_sec a / (total_dist a / 1000))%Q else None in
  Ok {| fields :=
          {| activityId := stem file_name;
             start_time := first_start a;
             sport := sport;
             distance_m := total_dist a;
             duration_s := total_sec a;
             avg_hr := avg_hr;
             max_hr := max_hr;
             avg_pace_s := avg_pace_s;
             elevation_gain_m := elevation_gain;
             cadence := avg_cadence;
             calories := total_cal a |};
        coordinates := coords |}.

Record Feature := {
  geometry : list (Q * Q);          (* the LineString *)
  properties_activityId : string
}.

Inductive artifact :=
| FeatureJson (f : Feature)
| MetaJson (m : Meta)
| FeatureCollection (features : list Feature)
| IndexJson (records : list Meta).

Inductive status :=
| Completed
| Uncaught (e : exn).

Record outcome := {
  written : gmap string artifact;
  printed : list string;
  exit : status
}.

(** The loop of [main] over the globbed files, on the lists [segments]
    and [index] and the files written so far.  [parse_tcx] is called
    outside any [try]: an exception ends the run. *)
Fixpoint process (files : list (string * content))
  (segments : list Feature) (index : list Meta)
  (fs : gmap string artifact) : outcome :=
  match files with
  | [] =>
      let fs := <["segments.geojson" := FeatureCollection segments]> fs in
      let fs := <["activity_index.json" := IndexJson index]> fs in
      {| written := fs;
         printed :=
           ["Processed " +:+ pretty (length segments) +:+ " activities.";
            "Outputs written to segments.geojson and activity_index.json"];
         exit := Completed |}
  | (name, c) :: rest =>
      match parse_tcx name c with
      | Raise e => {| written := fs; printed := []; exit := Uncaught e |}
      | Ok data =>
          if (length (coordinates data) <? 2)%nat
          then process rest segments index fs
          else
            let id := activityId (fields data) in
            let feat :=
              {| geometry := coordinates data; properties_activityId := id |} in
            let fs := <["geojson/" +:+ id +:+ ".geojson" := FeatureJson feat]> fs in
            let meta := fields data in
            let fs := <["metadata/" +:+ id +:+ ".json" := MetaJson meta]> fs in
            process rest (segments ++ [feat])%list (index ++ [meta])%list fs
      end
  end.

(** [raw_dir.glob('*.tcx')] *)
Definition glob_tcx (raw : list (string * content)) : list (string * content) :=
  filter (fun f => Is_true (endswith f.1 ".tcx")) raw.

Definition main (raw : list (string * content)) : outcome :=
  process (glob_tcx raw) [] [] ∅.

End PreprocessTcx.

Import NormaliseStrava.

(** ** Notions the properties are stated with *)



(** What a file of the batch yields under [normalise_strava]: its record
    when an extractor is chosen and returns, ... *)
Definition indexed (file : string * content) : option Meta :=
  match extract file.1 file.2 with
  | Some (Ok (m, _)) => Some m
  | _ => None
  end.

(** ... its geometry feature when, besides, it has points, ... *)
Definition featured (file : string * content) : option Feature :=
  match extract file.1 file.2 with
  | Some (Ok (m, pts)) =>
      if has_points pts
      then Some {| coordinates := default [] pts; properties := m |}
      else None
  | _ => None
  end.

(** ... and the diagnostic printed when the extractor raises. *)
Definition diagnostic (file : string * content) : option string :=
  match extract file.1 file.2 with
  | Some (Raise e) => Some ("Failed to parse " +:+ file.1 +:+ ": " +:+ exn_msg e)
  | _ => None
  end.

Definition summary (n_index n_features : nat) : string :=
  "Wrote " +:+ pretty n_index +:+ " metadata entries and "
  +:+ pretty n_features +:+ " geo features.".

(** Under [preprocess_tcx]: the exception of the first file whose parse
    raises, and the data of the files parsed before it. *)
Fixpoint first_failure (files : list (string * content)) : option exn :=
  match files with
  | [] => None
  | (name, c) :: rest =>
      match PreprocessTcx.parse_tcx name c with
      | Raise e => Some e
      | Ok _ => first_failure rest
      end
  end.

Fixpoint parsed_before_failure (files : list (string * content))
  : list PreprocessTcx.Data :=
  match files with
  | [] => []
  | (name, c) :: rest =>
      match PreprocessTcx.parse_tcx name c with
      | Raise e => []
      | Ok d => d :: parsed_before_failure rest
      end
  end.

(** The stricter geometry threshold of [preprocess_tcx]. *)
Definition is_line (d : PreprocessTcx.Data) : bool :=
  (2 <=? length (PreprocessTcx.coordinates d))%nat.

(** The FIT record loop of [normalise_strava], one loop variable at a
    time: the point a record message adds, ... *)
Definition point_of (vals : RecordMsg) : Points :=
  match position_lat vals, position_long vals with
  | Some lat, Some lon =>
      if Ztruthy lat && Ztruthy lon then [(degrees lon, degrees lat)] else []
  | _, _ => []
  end.

(** ... the distance it reports, when that is not zero, ... *)
Definition distance_of (vals : RecordMsg) : option Q :=
  match distance vals with
  | Some d => if Qtruthy d then Some d else None
  | None => None
  end.



(** The dictionary among the loop variables. *)
Definition st_meta (st : Points * Meta * list Z * option Q * Q) : Meta :=
  st.1.1.1.2.



















(** What [preprocess_tcx] writes for one activity. *)
Definition feature_of (d : PreprocessTcx.Data) : PreprocessTcx.Feature :=
  {| PreprocessTcx.geometry := PreprocessTcx.coordinates d;
     PreprocessTcx.properties_activityId :=
       PreprocessTcx.activityId (PreprocessTcx.fields d) |}.

Definition write_activity (fs : gmap string PreprocessTcx.artifact)
  (d : PreprocessTcx.Data) : gmap string PreprocessTcx.artifact :=
  let id := PreprocessTcx.activityId (PreprocessTcx.fields d) in
  <["metadata/" +:+ id +:+ ".json" := PreprocessTcx.MetaJson (PreprocessTcx.fields d)]>
    (<["geojson/" +:+ id +:+ ".geojson" := PreprocessTcx.FeatureJson (feature_of d)]> fs).

(** ** Sample inputs *)

Definition positioned (alt : option text) (hr : option text) : Trackpoint :=
  {| tp_Time := Some "2024-05-01T06:00:00Z";
     tp_Position :=
       Some {| LatitudeDegrees := Some (TDec (4567 # 100));
               LongitudeDegrees := Some (TDec (-1234 # 100)) |};
     tp_AltitudeMeters := alt;
     tp_HeartRateBpm := hr;
     tp_Cadence := None |}.

(** A lap giving its time and distance both as attributes and as child
    elements, so that the two scripts read the same numbers. *)
Definition lap_of (time dist : option text) (avg_hr max_hr : option text)
  (tps : list Trackpoint) : Lap :=
  {| lap_StartTime := Some "2024-05-01T06:00:00Z";
     lap_attr_TotalTimeSeconds := time;
     lap_attr_DistanceMeters := dist;
     lap_TotalTimeSeconds := time;
     lap_DistanceMeters := dist;
     lap_Calories := None;
     lap_AverageHeartRateBpm := avg_hr;
     lap_MaximumHeartRateBpm := max_hr;
     lap_Trackpoints := tps |}.

Definition ride (laps : list Lap) : TcxDoc :=
  {| Activity := Some (Some "Biking"); Laps := laps |}.

(** One lap, one positioned trackpoint. *)
Definition short_ride : TcxDoc :=
  ride [lap_of None None None None [positioned None None]].

(** One lap, two positioned trackpoints. *)
Definition plain_ride : TcxDoc :=
  ride [lap_of (Some (TInt 3600)) (Some (TInt 10000)) None None
          [positioned None None; positioned None None]].

(** A FIT stream whose record messages report the given distances and
    nothing else. *)
Definition reporting (d : Q) : RecordMsg :=
  {| position_lat := None; position_long := None; timestamp := None;
     distance := Some d; heart_rate := None;
     enhanced_altitude := None; altitude := None; cadence := None |}.

Definition fit_of_distances (ds : list Q) : FitFile :=
  {| records := map reporting ds; sessions := [] |}.

(** The JSON object [{"sport": "run"}]. *)
Definition just_run : pyval := VDict [("sport", VStr "run")].






(** A file that is not XML, followed by a well-formed activity. *)
Definition broken_then_plain : list (string * content) :=
  [("broken.tcx", Garbage); ("plain.tcx", Tcx plain_ride)].

(** The value a call returned ([d] when it raised). *)
Definition the {A} (d : A) (r : result A) : A :=
  match r with
  | Ok a => a
  | Raise _ => d
  end.

Definition no_record : Meta * Points := (∅, []).
Definition no_json_record : Meta * option Points := (∅, None).

(** The names the batch loop of [normalise_strava] dispatches on. *)
Definition recognised (fname : string) : bool :=
  let lower := lower fname in
  endswith lower ".tcx" || endswith lower ".gpx" || endswith lower ".fit"
  || endswith lower ".fit.gz" || endswith lower ".json".

(** The activities [preprocess_tcx] keeps: the data parsed before any
    failure that make a line. *)
Definition kept (raw : list (string * content)) : list PreprocessTcx.Data :=
  List.filter is_line (parsed_before_failure (PreprocessTcx.glob_tcx raw)).

(** The value standing for the data of a call that raised. *)
Definition no_data : PreprocessTcx.Data :=
  {| PreprocessTcx.fields :=
       {| PreprocessTcx.activityId := "";
          PreprocessTcx.start_time := None;
          PreprocessTcx.sport := "";
          PreprocessTcx.distance_m := 0;
          PreprocessTcx.duration_s := 0;
          PreprocessTcx.avg_hr := None;
          PreprocessTcx.max_hr := None;
          PreprocessTcx.avg_pace_s := None;
          PreprocessTcx.elevation_gain_m := None;
          PreprocessTcx.cadence := None;
          PreprocessTcx.calories := 0 |};
     PreprocessTcx.coordinates := [] |}.



(** A file name as [os.listdir] gives it: without a slash. *)
Definition plain_name (fname : string) : Prop :=
  ~ In "/"%char (list_ascii_of_string fname).

(** The cadence a record message reports, when that is not zero. *)
Definition cadence_of (vals : RecordMsg) : option Z :=
  match cadence vals with
  | Some k => if Ztruthy k then Some k else None
  | None => None
  end.

(** What a session message reports, when that is not zero (not empty). *)
Definition elapsed_of (v : SessionMsg) : option Q :=
  match total_elapsed_time v with
  | Some t => if Qtruthy t then Some t else None
  | None => None
  end.

Definition calories_of (v : SessionMsg) : option Z :=
  match total_calories v with
  | Some k => if Ztruthy k then Some k else None
  | None => None
  end.

Definition sport_of (v : SessionMsg) : option string :=
  match sport v with
  | Some s => if String.eqb s "" then None else Some s
  | None => None
  end.

(** The points of a GPX document, track after track, segment after
    segment. *)
Definition gpx_points (g : GpxDoc) : list (Q * Q) :=
  flat_map (fun tr =>
    flat_map (fun seg => map (fun p => (longitude p, latitude p)) seg) tr)
    (tracks g).

(** The first point of the first segment of the first track. *)
Definition gpx_first_point (g : GpxDoc) : option GpxPoint :=
  match tracks g with
  | ((p :: _) :: _) :: _ => Some p
  | _ => None
  end.

(** A FIT stream of three record messages and three session messages. *)
Definition sampled_at (ts : option string) (hr cad : option Z) : RecordMsg :=
  {| position_lat := None; position_long := None; timestamp := ts;
     distance := None; heart_rate := hr;
     enhanced_altitude := None; altitude := None; cadence := cad |}.

Definition spin : FitFile :=
  {| records :=
       [sampled_at None (Some 120) (Some 80);
        sampled_at (Some "2024-05-01T06:00:00") (Some 0) (Some 90);
        sampled_at (Some "2024-05-01T06:00:01") (Some 131) (Some 0)];
     sessions :=
       [{| sport := None; total_elapsed_time := Some 0%Q; total_calories := None |};
        {| sport := Some "cycling"; total_elapsed_time := Some 1800%Q;
           total_calories := Some 300 |};
        {| sport := Some "running"; total_elapsed_time := Some 60%Q;
           total_calories := Some 5 |}] |}.

(** A GPX point at the given coordinates. *)
Definition gpx_at (lon lat : Q) (t : option string) : GpxPoint :=
  {| longitude := lon; latitude := lat; gp_time := t |}.

(** Two tracks: one segment of two points, then two segments of one. *)
Definition two_tracks : GpxDoc :=
  {| tracks :=
       [[[gpx_at 1 2 (Some "2024-05-01T06:00:00"); gpx_at 3 4 None]];
        [[gpx_at 5 6 None]; [gpx_at 7 8 None]]];
     length_2d := 1234 |}.

(** A first track without segments, before a track with a point. *)
Definition empty_first_track : GpxDoc :=
  {| tracks := [[]; [[gpx_at 1 2 (Some "2024-05-01T06:00:00")]]];
     length_2d := 0 |}.



(** A call returns when it raises nothing. *)
Definition returns {A} (r : result A) : Prop := exists a, r = Ok a.









(** The JSON values [load_json_meta] accepts: an object whose sport, if
    any, is a string or falsy. *)
Definition json_readable (c : content) : bool :=
  match c with
  | Json (VDict items) =>
      match dict_of items !! "sport" with
      | Some (VStr _) | None => true
      | Some v => negb (truthy v)
      end
  | _ => false
  end.

(** * Properties *)

(** A closed equation settled by evaluation. *)
Ltac by_evaluation :=
  lazymatch goal with
  | |- _ = ?rhs => vm_cast_no_check (@eq_refl _ rhs)
  end.

(** [exists m pts, call = Ok (m, pts) /\ _], at the values the call
    returns. *)
Ltac returned call d :=
  let E := fresh "Ecall" in
  assert (E : call = Ok ((the d call).1, (the d call).2)) by by_evaluation;
  exists (the d call).1, (the d call).2; split; [exact E|].

(** ** Characters and strings *)

Section Strings.



Lemma to_lower_not_space c : is_space c = false -> to_lower c <> " "%char.
Proof. destruct c as [[] [] [] [] [] [] [] []]; intros H; (discriminate H || discriminate). Qed.













Lemma title_eq_empty s : title s = "" -> s = "".
Proof. destruct s; [reflexivity | discriminate]. Qed.

Lemma lower_eq_empty s : lower s = "" -> s = "".
Proof. destruct s; [reflexivity | discriminate]. Qed.

Lemma eqb_empty_false s : s <> "" -> String.eqb s "" = false.
Proof. intros H. apply String.eqb_neq. exact H. Qed.

End Strings.

(** ** [normalize_sport] *)















(** ** The batch loops *)

Lemma fold_left_step raw st :
  fold_left step raw st =
  {| features := features st ++ omap featured raw;
     index := index st ++ omap indexed raw;
     stdout := stdout st ++ omap diagnostic raw |}%list.
Proof.
  revert st; induction raw as [|[fname c] raw IH]; intros st.
  - simpl. rewrite !app_nil_r. by destruct st.
  - cbn [fold_left]. rewrite IH. clear IH.
    unfold step, indexed, featured, diagnostic. simpl.
    destruct (extract fname c) as [[[m pts]|e]|]; simpl.
    + destruct (has_points pts); simpl; by rewrite <- ?app_assoc.
    + by rewrite <- ?app_assoc.
    + reflexivity.
Qed.

Lemma main_outcome raw :
  main raw =
  {| written :=
       <[OUT_GEOJSON := FeatureCollection (omap featured raw)]>
         (<[OUT_INDEX := IndexJson (omap indexed raw)]> ∅);
     printed :=
       (omap diagnostic raw ++
        [summary (length (omap indexed raw)) (length (omap featured raw))])%list |}.
Proof. unfold main. rewrite fold_left_step. reflexivity. Qed.

Lemma main_index raw :
  written (main raw) !! OUT_INDEX = Some (IndexJson (omap indexed raw)).
Proof. rewrite main_outcome. simpl. by rewrite lookup_insert_ne, lookup_insert_eq. Qed.

Lemma main_geojson raw :
  written (main raw) !! OUT_GEOJSON = Some (FeatureCollection (omap featured raw)).
Proof. rewrite main_outcome. simpl. by rewrite lookup_insert_eq. Qed.

Lemma process_outcome files segments index fs :
  let lines := List.filter is_line (parsed_before_failure files) in
  let fs' := fold_left write_activity lines fs in
  PreprocessTcx.process files segments index fs =
  match first_failure files with
  | Some e =>
      {| PreprocessTcx.written := fs';
         PreprocessTcx.printed := [];
         PreprocessTcx.exit := PreprocessTcx.Uncaught e |}
  | None =>
      {| PreprocessTcx.written :=
           <["activity_index.json" :=
               PreprocessTcx.IndexJson (index ++ map PreprocessTcx.fields lines)]>
           (<["segments.geojson" :=
               PreprocessTcx.FeatureCollection (segments ++ map feature_of lines)]> fs');
         PreprocessTcx.printed :=
           ["Processed " +:+ pretty (length (segments ++ map feature_of lines))
              +:+ " activities.";
            "Outputs written to segments.geojson and activity_index.json"];
         PreprocessTcx.exit := PreprocessTcx.Completed |}
  end.
Proof.
  revert segments index fs.
  induction files as [|[name c] files IH]; intros segments index fs; simpl.
  - by rewrite !app_nil_r.
  - destruct (PreprocessTcx.parse_tcx name c) as [d|e] eqn:Hp; simpl; [|reflexivity].
    assert (Hlt : (length (PreprocessTcx.coordinates d) <? 2)%nat = negb (is_line d)).
    { unfold is_line. apply Nat.ltb_antisym. }
    rewrite Hlt. destruct (is_line d); simpl.
    + rewrite IH. simpl. rewrite <- !app_assoc. reflexivity.
    + apply IH.
Qed.

Lemma write_activity_merged fs d :
  write_activity fs d !! "segments.geojson" = fs !! "segments.geojson" /\
  write_activity fs d !! "activity_index.json" = fs !! "activity_index.json".
Proof. unfold write_activity. by rewrite !lookup_insert_ne. Qed.

Lemma write_activities_merged ds fs :
  fold_left write_activity ds fs !! "segments.geojson" = fs !! "segments.geojson" /\
  fold_left write_activity ds fs !! "activity_index.json" = fs !! "activity_index.json".
Proof.
  revert fs; induction ds as [|d ds IH]; intros fs; simpl; [done|].
  destruct (IH (write_activity fs d)) as [-> ->]. apply write_activity_merged.
Qed.

Lemma preprocess_main_outcome raw :
  let files := PreprocessTcx.glob_tcx raw in
  let lines := List.filter is_line (parsed_before_failure files) in
  match first_failure files with
  | Some e =>
      PreprocessTcx.exit (PreprocessTcx.main raw) = PreprocessTcx.Uncaught e /\
      PreprocessTcx.written (PreprocessTcx.main raw) !! "segments.geojson" = None /\
      PreprocessTcx.written (PreprocessTcx.main raw) !! "activity_index.json" = None
  | None =>
      PreprocessTcx.exit (PreprocessTcx.main raw) = PreprocessTcx.Completed /\
      PreprocessTcx.written (PreprocessTcx.main raw) !! "segments.geojson"
        = Some (PreprocessTcx.FeatureCollection (map feature_of lines)) /\
      PreprocessTcx.written (PreprocessTcx.main raw) !! "activity_index.json"
        = Some (PreprocessTcx.IndexJson (map PreprocessTcx.fields lines))
  end.
Proof.
  intros files lines. unfold PreprocessTcx.main. fold files.
  rewrite process_outcome. fold lines.
  destruct (first_failure files) as [e|]; simpl.
  - destruct (write_activities_merged lines ∅) as [-> ->]. by rewrite !lookup_empty.
  - by rewrite lookup_insert_ne, !lookup_insert_eq.
Qed.

(** C1, as stated, fails under [preprocess_tcx]: a file that parses into
    a single coordinate is left out of the metadata index as well as of
    the feature collection. *)
Lemma short_track_dropped_from_index :
  (exists d, PreprocessTcx.parse_tcx "short.tcx" (Tcx short_ride) = Ok d /\
             length (PreprocessTcx.coordinates d) = 1%nat) /\
  PreprocessTcx.exit (PreprocessTcx.main [("short.tcx", Tcx short_ride)])
    = PreprocessTcx.Completed /\
  PreprocessTcx.written (PreprocessTcx.main [("short.tcx", Tcx short_ride)])
    !! "activity_index.json" = Some (PreprocessTcx.IndexJson []).
Proof.
  split.
  - eexists. split; [vm_compute; reflexivity | reflexivity].
  - split; by_evaluation.
Qed.

(** C1 (amended): under [normalise_strava] the metadata index holds, in
    listing order, exactly one record for each file an extractor parses
    successfully, whether or not it has points, and only the feature
    collection leaves out the files without points; under
    [preprocess_tcx] a parsed file enters the index, like the feature
    collection, only with at least two coordinates. *)
Theorem index_of_parsed_files raw :
  written (main raw) !! OUT_INDEX = Some (IndexJson (omap indexed raw)) /\
  written (main raw) !! OUT_GEOJSON = Some (FeatureCollection (omap featured raw)) /\
  (forall file m pts,
     In file raw -> extract file.1 file.2 = Some (Ok (m, pts)) ->
     In m (omap indexed raw) /\
     (has_points pts = false -> featured file = None)) /\
  match first_failure (PreprocessTcx.glob_tcx raw) with
  | Some _ =>
      PreprocessTcx.written (PreprocessTcx.main raw) !! "activity_index.json" = None
  | None =>
      PreprocessTcx.written (PreprocessTcx.main raw) !! "activity_index.json"
      = Some (PreprocessTcx.IndexJson
                (map PreprocessTcx.fields
                   (List.filter is_line
                      (parsed_before_failure (PreprocessTcx.glob_tcx raw)))))
  end.
Proof.
  split; [apply main_index|]. split; [apply main_geojson|]. split.
  - intros file m pts Hin Hex. split.
    + apply list_elem_of_In, list_elem_of_omap. exists file. split.
      * by apply list_elem_of_In.
      * unfold indexed. by rewrite Hex.
    + intros Hp. unfold featured. by rewrite Hex, Hp.
  - pose proof (preprocess_main_outcome raw) as H. simpl in H.
    destruct (first_failure (PreprocessTcx.glob_tcx raw)); tauto.
Qed.

Lemma index_of_parsed_files_witness :
  exists m, In m (omap indexed [("note.json", Json (VDict [("sport", VStr "Hike")]))]).
Proof.
  exists (the no_json_record
            (load_json_meta "raw/note.json" (Json (VDict [("sport", VStr "Hike")])))).1.
  refine (proj1 (proj1 (proj2 (proj2 (index_of_parsed_files
            [("note.json", Json (VDict [("sport", VStr "Hike")]))])))
            ("note.json", Json (VDict [("sport", VStr "Hike")])) _ None
            (or_introl eq_refl) _)).
  by_evaluation.
Defined.

(** C2, as stated, fails under [preprocess_tcx], whose loop has no
    handler: a file that does not parse ends the run with its exception,
    the well-formed file after it is never read, and neither merged
    artifact is written. *)
Lemma preprocess_aborts_on_broken_file :
  PreprocessTcx.exit (PreprocessTcx.main broken_then_plain)
    = PreprocessTcx.Uncaught (Exn "ParseError" "not well-formed (invalid token)") /\
  PreprocessTcx.printed (PreprocessTcx.main broken_then_plain) = [] /\
  PreprocessTcx.written (PreprocessTcx.main broken_then_plain) = ∅.
Proof.
  repeat split; by_evaluation.
Qed.

(** C2 (amended): under [normalise_strava] every file whose extractor
    raises is caught: a line naming the file and the cause is printed, the
    remaining files are processed, and both artifacts are written at the
    end of every run.  Under [preprocess_tcx] nothing is caught: the run
    completes and writes both artifacts only when no globbed file raises,
    and otherwise ends with the first exception and writes neither. *)
Theorem batch_and_parse_failures raw :
  printed (main raw)
    = (omap diagnostic raw
       ++ [summary (length (omap indexed raw)) (length (omap featured raw))])%list /\
  (forall file e,
     In file raw -> extract file.1 file.2 = Some (Raise e) ->
     In ("Failed to parse " +:+ file.1 +:+ ": " +:+ exn_msg e) (printed (main raw))) /\
  written (main raw) !! OUT_INDEX = Some (IndexJson (omap indexed raw)) /\
  written (main raw) !! OUT_GEOJSON = Some (FeatureCollection (omap featured raw)) /\
  match first_failure (PreprocessTcx.glob_tcx raw) with
  | Some e =>
      PreprocessTcx.exit (PreprocessTcx.main raw) = PreprocessTcx.Uncaught e /\
      PreprocessTcx.written (PreprocessTcx.main raw) !! "segments.geojson" = None /\
      PreprocessTcx.written (PreprocessTcx.main raw) !! "activity_index.json" = None
  | None =>
      PreprocessTcx.exit (PreprocessTcx.main raw) = PreprocessTcx.Completed /\
      is_Some (PreprocessTcx.written (PreprocessTcx.main raw) !! "segments.geojson") /\
      is_Some (PreprocessTcx.written (PreprocessTcx.main raw) !! "activity_index.json")
  end.
Proof.
  split; [by rewrite main_outcome|].
  split.
  { intros file e Hin Hex. rewrite main_outcome. simpl.
    apply in_or_app. left.
    apply list_elem_of_In, list_elem_of_omap. exists file. split.
    - by apply list_elem_of_In.
    - unfold diagnostic. by rewrite Hex. }
  split; [apply main_index|]. split; [apply main_geojson|].
  pose proof (preprocess_main_outcome raw) as H. simpl in H.
  destruct (first_failure (PreprocessTcx.glob_tcx raw)); [exact H|].
  destruct H as (-> & -> & ->). eauto.
Qed.

Lemma batch_and_parse_failures_witness :
  In "Failed to parse broken.tcx: not well-formed (invalid token)"
     (printed (main broken_then_plain)) /\
  length (omap indexed broken_then_plain) = 1%nat.
Proof.
  split; [|by_evaluation].
  apply (proj1 (proj2 (batch_and_parse_failures broken_then_plain))
           ("broken.tcx", Garbage)
           (Exn "ParseError" "not well-formed (invalid token)")
           (or_introl eq_refl) ltac:(by_evaluation)).
Defined.

(** ** The FIT extractor *)

Section FitRecords.

Local Abbreviation loop_state := (Points * Meta * list Z * option Q * Q)%type.

Lemma record_step_points st vals :
  (record_step st vals).1.1.1.1 = (st.1.1.1.1 ++ point_of vals)%list.
Proof.
  destruct st as [[[[pts m] hr] prev] g]. unfold record_step, point_of. simpl.
  destruct (or_else _ _); simpl;
    destruct (position_lat vals), (position_long vals); simpl;
    try destruct (Ztruthy _ && Ztruthy _); simpl; by rewrite ?app_nil_r.
Qed.

Lemma record_step_distance st vals :
  st_meta (record_step st vals) !! "distance_m" =
  match distance_of vals with
  | Some d => Some (VFloat d)
  | None => st_meta st !! "distance_m"
  end.
Proof.
  destruct st as [[[[pts m] hr] prev] g].
  unfold record_step, distance_of, st_meta. simpl.
  destruct (or_else _ _); simpl;
    destruct (cadence vals) as [k|]; try destruct (Ztruthy k);
    destruct (distance vals) as [d|]; try destruct (Qtruthy d);
    destruct (timestamp vals) as [t|]; try destruct (negb _);
    by simplify_map_eq.
Qed.

Lemma record_step_other st vals k :
  k <> "distance_m" -> k <> "start_time" -> k <> "cadence" ->
  st_meta (record_step st vals) !! k = st_meta st !! k.
Proof.
  intros H1 H2 H3. destruct st as [[[[pts m] hr] prev] g].
  unfold record_step, st_meta. simpl.
  destruct (or_else _ _); simpl;
    destruct (cadence vals) as [c|]; try destruct (Ztruthy c);
    destruct (distance vals) as [d|]; try destruct (Qtruthy d);
    destruct (timestamp vals) as [t|]; try destruct (negb _);
    by simplify_map_eq.
Qed.


Lemma record_loop_points rs st :
  (fold_left record_step rs st).1.1.1.1 = (st.1.1.1.1 ++ flat_map point_of rs)%list.
Proof.
  revert st; induction rs as [|r rs IH]; intros st; simpl.
  - by rewrite app_nil_r.
  - by rewrite IH, record_step_points, <- app_assoc.
Qed.

Lemma record_loop_distance rs st :
  st_meta (fold_left record_step rs st) !! "distance_m" =
  match last (omap distance_of rs) with
  | Some d => Some (VFloat d)
  | None => st_meta st !! "distance_m"
  end.
Proof.
  revert st; induction rs as [|r rs IH]; intros st; simpl; [reflexivity|].
  rewrite IH, record_step_distance.
  destruct (distance_of r) as [d|]; simpl; [|reflexivity].
  rewrite last_cons.
  change (list_omap _ _ distance_of rs) with (omap distance_of rs).
  by destruct (last (omap distance_of rs)).
Qed.

Lemma record_loop_other rs st k :
  k <> "distance_m" -> k <> "start_time" -> k <> "cadence" ->
  st_meta (fold_left record_step rs st) !! k = st_meta st !! k.
Proof.
  intros H1 H2 H3. revert st; induction rs as [|r rs IH]; intros st; simpl;
    [reflexivity|]. by rewrite IH, record_step_other.
Qed.


End FitRecords.

Lemma session_step_other m v k :
  k <> "sport" -> k <> "duration_s" -> k <> "calories" ->
  session_step m v !! k = m !! k.
Proof.
  intros H1 H2 H3. unfold session_step.
  destruct (total_calories v) as [c|]; try destruct (Ztruthy c && _);
    destruct (total_elapsed_time v) as [t|]; try destruct (Qtruthy t && _);
    destruct (sport v) as [s|]; try destruct (truthy (VStr s) && _);
    by simplify_map_eq.
Qed.

Lemma session_loop_other vs m k :
  k <> "sport" -> k <> "duration_s" -> k <> "calories" ->
  fold_left session_step vs m !! k = m !! k.
Proof.
  intros H1 H2 H3. revert m; induction vs as [|v vs IH]; intros m; simpl;
    [reflexivity|]. by rewrite IH, session_step_other.
Qed.

Lemma fit_initial_meta path k :
  In k fit_keys -> k <> "activityId" ->
  (<["activityId" := VStr (basename path)]>
     (fold_left (fun m k => <[k := VNone]> m) fit_keys (∅ : Meta))) !! k = Some VNone.
Proof.
  intros Hin Hk. simpl in Hin.
  repeat (destruct Hin as [<-|Hin]; [by simplify_map_eq|]). done.
Qed.

Lemma FitFile_open_same gz f : FitFile_open gz (Fit gz f) = Ok f.
Proof. unfold FitFile_open. by destruct gz. Qed.

(** [parse_fit] returns on every FIT stream read with the matching
    [compressed] flag; its points and its distance are those of the
    record loop. *)
Lemma parse_fit_returns path gz f :
  exists m,
    parse_fit path gz (Fit gz f) = Ok (m, flat_map point_of (records f)) /\
    m !! "distance_m"
      = Some (from_option VFloat VNone (last (omap distance_of (records f)))).
Proof.
  unfold parse_fit. rewrite FitFile_open_same. simpl.
  set (m0 := <["activityId" := VStr (basename path)]> _).
  pose proof (record_loop_points (records f) ([], m0, [], None, 0%Q)) as Hp.
  pose proof (record_loop_distance (records f) ([], m0, [], None, 0%Q)) as Hd.
  destruct (fold_left record_step (records f) _) as [[[[pts m] hr] prev] g].
  unfold st_meta in Hd. simpl in Hp, Hd. subst pts.
  eexists. split; [reflexivity|].
  assert (Hs : fold_left session_step (sessions f) m !! "distance_m"
               = Some (from_option VFloat VNone (last (omap distance_of (records f))))).
  { rewrite session_loop_other by done. rewrite Hd.
    destruct (last _); [reflexivity|]. subst m0. by simplify_map_eq. }
  destruct hr; destruct (Qtruthy g); destruct (truthy _ && truthy _);
    by simplify_map_eq.
Qed.

Lemma omap_distance_of rs :
  omap distance_of rs = List.filter Qtruthy (omap distance rs).
Proof.
  induction rs as [|r rs IH]; [reflexivity|].
  cbn [omap list_omap]. unfold distance_of at 1.
  destruct (distance r) as [d|]; [|exact IH].
  cbn [List.filter]. destruct (Qtruthy d); [f_equal|]; exact IH.
Qed.

(** C8, as stated, fails: a distance of zero is read as no distance, so
    when the last record message reports 0 the earlier value stays, and
    when every message reports 0 the field stays null. *)
Lemma fit_zero_distance_skipped :
  last (omap distance (records (fit_of_distances [100; 250; 0]%Q))) = Some 0%Q /\
  (exists m pts,
     parse_fit "raw/a.fit" false (Fit false (fit_of_distances [100; 250; 0]%Q))
       = Ok (m, pts) /\
     m !! "distance_m" = Some (VFloat 250)) /\
  (exists m pts,
     parse_fit "raw/b.fit" false (Fit false (fit_of_distances [0]%Q)) = Ok (m, pts) /\
     m !! "distance_m" = Some VNone).
Proof.
  split; [reflexivity|]. split.
  - returned (parse_fit "raw/a.fit" false (Fit false (fit_of_distances [100; 250; 0]%Q)))
      no_record.
    by_evaluation.
  - returned (parse_fit "raw/b.fit" false (Fit false (fit_of_distances [0]%Q)))
      no_record.
    by_evaluation.
Qed.

(** C8 (amended): for every FIT input, [distance_m] is the latest
    distance value, among the record messages in stream order, that is
    neither absent nor zero (overwriting, not accumulating), and is null
    when there is none. *)
Theorem fit_distance_last_wins path gz f m pts :
  parse_fit path gz (Fit gz f) = Ok (m, pts) ->
  m !! "distance_m"
    = Some (from_option VFloat VNone
              (last (List.filter Qtruthy (omap distance (records f))))).
Proof.
  intros H. destruct (parse_fit_returns path gz f) as (m' & H' & Hd).
  rewrite H' in H. injection H as <- _.
  by rewrite <- omap_distance_of.
Qed.

Lemma fit_distance_last_wins_witness :
  exists m pts,
    parse_fit "raw/ride.fit" false (Fit false (fit_of_distances [100; 250; 200]%Q))
      = Ok (m, pts) /\
    m !! "distance_m" = Some (VFloat 200).
Proof.
  returned (parse_fit "raw/ride.fit" false
              (Fit false (fit_of_distances [100; 250; 200]%Q))) no_record.
  exact (fit_distance_last_wins "raw/ride.fit" false
           (fit_of_distances [100; 250; 200]%Q) _ _ Ecall).
Defined.



(** ** The JSON passthrough *)

Lemma setdefaults_lookup ks (d : Meta) k :
  fold_left (fun m k => setdefault k VNone m) ks d !! k =
  match d !! k with
  | Some v => Some v
  | None => if bool_decide (k ∈ ks) then Some VNone else None
  end.
Proof.
  revert d; induction ks as [|k' ks IH]; intros d; simpl.
  - by destruct (d !! k).
  - rewrite IH. unfold setdefault.
    destruct (decide (k = k')) as [->|Hne].
    + rewrite (bool_decide_eq_true_2 (k' ∈ k' :: ks)) by set_solver.
      destruct (d !! k') eqn:E; [by rewrite E|]. by rewrite lookup_insert_eq.
    + assert (Hd : bool_decide (k ∈ k' :: ks) = bool_decide (k ∈ ks)).
      { apply bool_decide_ext. set_solver. }
      rewrite Hd.
      destruct (d !! k') eqn:E; [reflexivity|]. by rewrite lookup_insert_ne.
Qed.

Lemma load_json_meta_Ok path c m pts :
  load_json_meta path c = Ok (m, pts) ->
  exists items sp,
    c = Json (VDict items) /\
    normalize_sport_val (get (dict_of items) "sport") = Ok sp /\
    pts = None /\
    m = fold_left (fun m k => setdefault k VNone m) json_defaults
          (<["sport" := VStr sp]> (dict_of items)).
Proof.
  unfold load_json_meta. intros H.
  destruct c as [| | |v|]; try discriminate H. simpl in H.
  destruct v as [| | | | | |items]; try discriminate H. simpl in H.
  destruct (normalize_sport_val (get (dict_of items) "sport")) as [sp|e] eqn:Hs;
    [|discriminate H].
  simpl in H. injection H as <- <-. by exists items, sp.
Qed.

(** C4, as stated, fails on its own example: "run" is not in the table
    of the Sport Normalizer, so the sport of [{"sport": "run"}] becomes
    "Run"; and [start_time] is not among the defaulted keys, so it is
    missing from the record rather than null. *)
Lemma json_run_is_not_running :
  exists m,
    load_json_meta "raw/a.json" (Json just_run) = Ok (m, None) /\
    m !! "sport" = Some (VStr "Run") /\
    m !! "sport" <> Some (VStr "Running") /\
    m !! "start_time" = None.
Proof.
  exists (the no_json_record (load_json_meta "raw/a.json" (Json just_run))).1.
  split; [by_evaluation|].
  assert (Hs : (the no_json_record (load_json_meta "raw/a.json" (Json just_run))).1
               !! "sport" = Some (VStr "Run")) by by_evaluation.
  split; [exact Hs|]. split; [rewrite Hs; discriminate | by_evaluation].
Qed.

(** C4 (amended): for every JSON object, the passthrough extractor
    replaces [sport] by its normalisation, sets each of the eight keys
    duration_s, distance_m, calories, avg_hr, max_hr, elevation_gain_m,
    avg_pace_s and cadence to null when it is missing, passes every key
    that is present through unchanged, and returns no coordinate
    sequence; on [{"sport": "run"}] the eight keys are null and the sport
    is "Run". *)
Theorem json_passthrough path c m pts :
  load_json_meta path c = Ok (m, pts) ->
  exists items,
    c = Json (VDict items) /\
    pts = None /\
    (exists sp, normalize_sport_val (get (dict_of items) "sport") = Ok sp /\
                m !! "sport" = Some (VStr sp)) /\
    (forall s, dict_of items !! "sport" = Some (VStr s) ->
               m !! "sport" = Some (VStr (normalize_sport (Some s)))) /\
    (dict_of items !! "sport" = None -> m !! "sport" = Some (VStr "Unknown")) /\
    (forall k, In k json_defaults -> dict_of items !! k = None ->
               m !! k = Some VNone) /\
    (forall k v, k <> "sport" -> dict_of items !! k = Some v -> m !! k = Some v) /\
    (forall k, k <> "sport" -> ~ In k json_defaults -> m !! k = dict_of items !! k).
Proof.
  intros H. apply load_json_meta_Ok in H as (items & sp & -> & Hs & -> & ->).
  exists items. split; [reflexivity|]. split; [reflexivity|]. split.
  { exists sp. split; [exact Hs|]. by rewrite setdefaults_lookup, lookup_insert_eq. }
  split.
  { intros s Hsp. rewrite setdefaults_lookup, lookup_insert_eq.
    unfold get in Hs. rewrite Hsp in Hs. simpl in Hs. by injection Hs as <-. }
  split.
  { intros Hsp. rewrite setdefaults_lookup, lookup_insert_eq.
    unfold get in Hs. rewrite Hsp in Hs. simpl in Hs. by injection Hs as <-. }
  split.
  { intros k Hin Hk. rewrite setdefaults_lookup.
    assert (k <> "sport").
    { intros ->. simpl in Hin. repeat (destruct Hin as [Hin|Hin]; [discriminate Hin|]). done. }
    rewrite lookup_insert_ne, Hk by done.
    rewrite bool_decide_eq_true_2; [reflexivity|]. by apply list_elem_of_In. }
  split.
  { intros k v Hk Hv. by rewrite setdefaults_lookup, lookup_insert_ne, Hv. }
  intros k Hk Hn. rewrite setdefaults_lookup, lookup_insert_ne by done.
  destruct (dict_of items !! k); [reflexivity|].
  rewrite bool_decide_eq_false_2; [reflexivity|]. by rewrite list_elem_of_In.
Qed.

Lemma json_passthrough_witness :
  exists m,
    load_json_meta "raw/a.json" (Json just_run) = Ok (m, None) /\
    m !! "sport" = Some (VStr "Run") /\
    Forall (fun k => m !! k = Some VNone) json_defaults.
Proof.
  assert (E : load_json_meta "raw/a.json" (Json just_run)
               = Ok ((the no_json_record
                        (load_json_meta "raw/a.json" (Json just_run))).1, None))
    by by_evaluation.
  exists (the no_json_record (load_json_meta "raw/a.json" (Json just_run))).1.
  split; [exact E|].
  destruct (json_passthrough "raw/a.json" (Json just_run) _ None E)
    as (items & Hc & _ & _ & Hsport & _ & Hnull & _).
  injection Hc as <-.
  split.
  - apply (Hsport "run"). by_evaluation.
  - repeat constructor; (apply Hnull; [simpl; tauto | by_evaluation]).
Defined.

(** ** Exceptions *)

Lemma bind_Ok {A B} (r : result A) (k : A -> result B) b :
  r ≫= k = Ok b -> exists a, r = Ok a /\ k a = Ok b.
Proof. destruct r as [a|e]; [|discriminate]. intros H. by exists a. Qed.

Ltac invert_bind H :=
  let a := fresh "x" in
  let Ha := fresh "E" in
  apply bind_Ok in H as (a & Ha & H).





(** ** Elevation gain *)





Lemma omap_cons_option_list {A B} (f : A -> option B) a l :
  omap f (a :: l) = (option_list (f a) ++ omap f l)%list.
Proof. cbn [omap list_omap]. by destruct (f a). Qed.


(** ** The TCX extractor of [normalise_strava] *)




(** ** The TCX extractor of [preprocess_tcx] *)





(** ** Heart rate *)




(** ** Elevation gain of a TCX activity *)




(** ** The fields of a FIT record *)





(** ** Average pace *)









(** ** Absent and zero *)





(** * Further properties of the two scripts *)

(** ** The batch loop of [normalise_strava] *)

Lemma featured_indexed file ft :
  featured file = Some ft ->
  indexed file = Some (properties ft) /\ coordinates ft <> [].
Proof.
  unfold featured, indexed.
  destruct (extract file.1 file.2) as [[[m pts]|e]|]; try discriminate.
  destruct pts as [[|p pts]|]; simpl; try discriminate.
  intros H. injection H as <-. split; [reflexivity | discriminate].
Qed.

Lemma features_sublist raw :
  sublist (map properties (omap featured raw)) (omap indexed raw).
Proof.
  induction raw as [|file raw IH]; [constructor|].
  cbn [omap list_omap].
  change (list_omap _ _ featured raw) with (omap featured raw).
  change (list_omap _ _ indexed raw) with (omap indexed raw).
  destruct (featured file) as [ft|] eqn:Hf.
  - apply featured_indexed in Hf as [-> _]. simpl. by constructor.
  - destruct (indexed file); [by constructor | exact IH].
Qed.

(** X1: in a run of [normalise_strava], the properties of the features
    written to segments.geojson are, in the same order, records of
    activity_index.json (a sublist of it), and every feature has at least
    one coordinate. *)
Theorem features_come_from_index raw fts recs :
  written (main raw) !! OUT_GEOJSON = Some (FeatureCollection fts) ->
  written (main raw) !! OUT_INDEX = Some (IndexJson recs) ->
  sublist (map properties fts) recs /\
  (length fts <= length recs)%nat /\
  Forall (fun ft => coordinates ft <> []) fts.
Proof.
  rewrite main_geojson, main_index. intros [= <-] [= <-].
  split; [apply features_sublist|]. split.
  - rewrite <- (length_map properties). apply sublist_length, features_sublist.
  - apply Forall_forall. intros ft Hin.
    apply list_elem_of_omap in Hin as (file & _ & Hf).
    by apply featured_indexed in Hf as [_ ?].
Qed.

Lemma features_come_from_index_witness :
  sublist (map properties (omap featured broken_then_plain))
          (omap indexed broken_then_plain) /\
  (length (omap featured broken_then_plain)
   <= length (omap indexed broken_then_plain))%nat /\
  Forall (fun ft => coordinates ft <> []) (omap featured broken_then_plain).
Proof.
  exact (features_come_from_index broken_then_plain _ _
           (main_geojson broken_then_plain) (main_index broken_then_plain)).
Defined.

Lemma unrecognised_extract fname c :
  recognised fname = false -> extract fname c = None.
Proof.
  unfold recognised, extract. cbv zeta. intros H.
  repeat (apply orb_false_iff in H as [H ?]).
  repeat match goal with E : endswith _ _ = false |- _ => rewrite E; clear E end.
  reflexivity.
Qed.

Lemma omap_filter_skipped {A B} (p : A -> bool) (g : A -> option B) (l : list A) :
  (forall a, p a = false -> g a = None) ->
  omap g (List.filter p l) = omap g l.
Proof.
  intros Hp. induction l as [|a l IH]; [reflexivity|].
  cbn [List.filter]. destruct (p a) eqn:E.
  - cbn [omap list_omap]. destruct (g a); [f_equal|]; exact IH.
  - cbn [omap list_omap]. rewrite (Hp a E). exact IH.
Qed.

(** X2: files whose lower-cased name ends in none of .tcx, .gpx, .fit,
    .fit.gz and .json leave no trace in a run of [normalise_strava]:
    removing them from the listing changes neither the files written nor
    the lines printed. *)
Theorem unrecognised_files_leave_no_trace raw :
  main (List.filter (fun file => recognised file.1) raw) = main raw.
Proof.
  rewrite !main_outcome.
  assert (Hi : omap indexed (List.filter (fun file => recognised file.1) raw)
               = omap indexed raw).
  { apply omap_filter_skipped. intros [fname c] H. unfold indexed. simpl in *.
    by rewrite (unrecognised_extract _ c H). }
  assert (Hf : omap featured (List.filter (fun file => recognised file.1) raw)
               = omap featured raw).
  { apply omap_filter_skipped. intros [fname c] H. unfold featured. simpl in *.
    by rewrite (unrecognised_extract _ c H). }
  assert (Hd : omap diagnostic (List.filter (fun file => recognised file.1) raw)
               = omap diagnostic raw).
  { apply omap_filter_skipped. intros [fname c] H. unfold diagnostic. simpl in *.
    by rewrite (unrecognised_extract _ c H). }
  by rewrite Hi, Hf, Hd.
Qed.

(** ** The batch loop of [preprocess_tcx] *)

Lemma kept_lines raw : Forall (fun d => is_line d = true) (kept raw).
Proof.
  apply List.Forall_forall. intros d Hd. unfold kept in Hd.
  by apply List.filter_In in Hd as [_ ?].
Qed.

(** X3: when a run of [preprocess_tcx] writes its merged outputs, the
    features of segments.geojson and the records of activity_index.json
    correspond one to one (same length, same activity ids in the same
    order), and every feature is a line of at least two coordinates. *)
Theorem preprocess_outputs_in_lockstep raw segs recs :
  PreprocessTcx.written (PreprocessTcx.main raw) !! "segments.geojson"
    = Some (PreprocessTcx.FeatureCollection segs) ->
  PreprocessTcx.written (PreprocessTcx.main raw) !! "activity_index.json"
    = Some (PreprocessTcx.IndexJson recs) ->
  length segs = length recs /\
  map PreprocessTcx.properties_activityId segs = map PreprocessTcx.activityId recs /\
  Forall (fun ft => (2 <= length (PreprocessTcx.geometry ft))%nat) segs.
Proof.
  pose proof (preprocess_main_outcome raw) as H. cbv zeta in H.
  destruct (first_failure (PreprocessTcx.glob_tcx raw)) as [e|].
  { destruct H as (_ & -> & _). discriminate. }
  destruct H as (_ & -> & ->). intros [= <-] [= <-].
  fold (kept raw).
  split; [by rewrite !length_map|]. split.
  - rewrite !map_map. reflexivity.
  - apply List.Forall_map. eapply List.Forall_impl; [|apply kept_lines].
    intros d Hd. unfold is_line in Hd. simpl. by apply Nat.leb_le.
Qed.

Lemma preprocess_outputs_in_lockstep_witness :
  length (map feature_of (kept [("plain.tcx", Tcx plain_ride)]))
    = length (map PreprocessTcx.fields (kept [("plain.tcx", Tcx plain_ride)])) /\
  map PreprocessTcx.properties_activityId
      (map feature_of (kept [("plain.tcx", Tcx plain_ride)]))
    = map PreprocessTcx.activityId
        (map PreprocessTcx.fields (kept [("plain.tcx", Tcx plain_ride)])) /\
  Forall (fun ft => (2 <= length (PreprocessTcx.geometry ft))%nat)
    (map feature_of (kept [("plain.tcx", Tcx plain_ride)])).
Proof.
  apply (preprocess_outputs_in_lockstep [("plain.tcx", Tcx plain_ride)]);
    by_evaluation.
Defined.






(** ** The TCX extractor of [normalise_strava], continued *)


Lemma parse_tcx_walk path c m pts :
  parse_tcx path c = Ok (m, pts) ->
  exists root sport_attr lap0 prev g,
    ET_parse c = Ok root /\
    Activity root = Some sport_attr /\
    head (Laps root) = Some lap0 /\
    foldM NormaliseStrava.trackpoint_step (Trackpoints root) ([], None, 0%Q)
      = Ok (pts, prev, g) /\
    m !! "activityId" = Some (VStr (basename path)) /\
    m !! "sport" = Some (VStr (normalize_sport (Some (default "Unknown" sport_attr)))) /\
    m !! "start_time" = Some (opt_str (lap_StartTime lap0)).
Proof.
  unfold parse_tcx. intros H.
  invert_bind H. rename x into root. rename E into Hroot.
  invert_bind H. rename x into raw_sport.
  destruct (Activity root) as [a|] eqn:Ha; [|discriminate E].
  injection E as <-.
  do 5 invert_bind H.
  invert_bind H. destruct x4 as [[pts' prev] g].
  invert_bind H. rename x4 into lap0.
  inversion H; subst m pts'; clear H.
  exists root, a, lap0, prev, g.
  split; [exact Hroot|]. split; [exact Ha|].
  split; [by destruct (Laps root); inversion E5|].
  split; [assumption|].
  by simplify_map_eq.
Qed.





(** ** Activity ids *)

Lemma append_cons x (a b : string) : String x a +:+ b = String x (a +:+ b).
Proof. reflexivity. Qed.

Lemma append_empty (b : string) : "" +:+ b = b.
Proof. reflexivity. Qed.

Lemma append_assoc (a b c : string) : (a +:+ b) +:+ c = a +:+ (b +:+ c).
Proof.
  induction a as [|x a IH]; [reflexivity|].
  rewrite !append_cons. f_equal. exact IH.
Qed.

Lemma append_empty_r (a : string) : a +:+ "" = a.
Proof.
  induction a as [|x a IH]; [reflexivity|]. rewrite append_cons. f_equal. exact IH.
Qed.

Lemma basename_from_plain acc s :
  plain_name s -> basename_from acc s = acc +:+ s.
Proof.
  unfold plain_name. revert acc; induction s as [|c s IH]; intros acc H.
  - simpl. by rewrite append_empty_r.
  - simpl in H. cbn [basename_from].
    destruct (Ascii.eqb_spec c "/"%char) as [->|Hc]; [tauto|].
    rewrite IH by tauto. rewrite append_assoc. reflexivity.
Qed.

Lemma basename_of_raw fname :
  plain_name fname -> basename (path_join RAW_DIR fname) = fname.
Proof.
  intros H. unfold basename, path_join, RAW_DIR.
  repeat first [rewrite append_cons | rewrite append_empty].
  cbn [basename_from Ascii.eqb Bool.eqb].
  by rewrite basename_from_plain.
Qed.

Lemma FitFile_open_Ok compressed c f :
  FitFile_open compressed c = Ok f -> c = Fit compressed f.
Proof.
  unfold FitFile_open. destruct c as [| |gz f'| |]; destruct compressed;
    try discriminate; destruct gz; simpl; try discriminate; by intros [= ->].
Qed.

Lemma parse_fit_untouched path gz f m pts k :
  In k ["activityId"; "sport"; "start_time"; "duration_s"; "calories"; "cadence"] ->
  parse_fit path gz (Fit gz f) = Ok (m, pts) ->
  m !! k
  = fold_left session_step (sessions f)
      (st_meta (fold_left record_step (records f)
         ([], <["activityId" := VStr (basename path)]>
                (fold_left (fun m k => <[k := VNone]> m) fit_keys ∅),
          [], None, 0%Q))) !! k.
Proof.
  intros Hk. unfold parse_fit. rewrite FitFile_open_same.
  cbv beta iota zeta. change (mbind ?f (Ok ?x)) with (f x). cbv beta.
  set (st := fold_left record_step (records f) _).
  destruct st as [[[[pts' m1] hr] prev] g]. unfold st_meta. simpl fst. simpl snd.
  set (m2 := fold_left session_step (sessions f) m1). clearbody m2.
  intros H. simpl in Hk.
  destruct hr as [|h hs]; destruct (Qtruthy g);
    match type of H with
    | context [if ?b then _ else _] => destruct b
    end;
    injection H as <- _;
    repeat (destruct Hk as [<-|Hk]; [by simplify_map_eq|]); done.
Qed.

Lemma parse_fit_activityId path gz c m pts :
  parse_fit path gz c = Ok (m, pts) ->
  m !! "activityId" = Some (VStr (basename path)).
Proof.
  intros H.
  assert (Hc : exists f, c = Fit gz f).
  { unfold parse_fit in H. invert_bind H. apply FitFile_open_Ok in E. eauto. }
  destruct Hc as [f ->].
  rewrite (parse_fit_untouched path gz f m pts "activityId"); [|simpl; tauto | exact H].
  rewrite session_loop_other by done.
  rewrite record_loop_other by done.
  unfold st_meta. simpl. by simplify_map_eq.
Qed.

Lemma parse_gpx_activityId path c m pts :
  parse_gpx path c = Ok (m, pts) ->
  m !! "activityId" = Some (VStr (basename path)).
Proof.
  unfold parse_gpx. intros H.
  invert_bind H. invert_bind H. invert_bind H. inversion H; subst m.
  by simplify_map_eq.
Qed.

(** X7: under [normalise_strava], the record of every TCX, GPX or FIT
    file carries the file's name, extension included, as its activityId
    (for a name without a slash, as a directory listing gives it). *)
Theorem activity_id_is_file_name fname c m pts :
  plain_name fname ->
  endswith (lower fname) ".json" = false ->
  extract fname c = Some (Ok (m, pts)) ->
  m !! "activityId" = Some (VStr fname).
Proof.
  intros Hplain Hjson H. unfold extract in H. cbv zeta in H.
  rewrite Hjson in H.
  rewrite <- (basename_of_raw fname Hplain).
  unfold with_points in H.
  repeat match type of H with
  | (if ?b then _ else _) = _ => destruct b
  end; try discriminate H; injection H as H; invert_bind H;
    destruct x as [m' pts']; inversion H; subst.
  - by apply parse_tcx_walk in E as (? & ? & ? & ? & ? & _ & _ & _ & _ & ? & _).
  - by apply parse_gpx_activityId in E.
  - by apply parse_fit_activityId in E.
  - by apply parse_fit_activityId in E.
Qed.

Lemma activity_id_is_file_name_witness :
  exists m pts,
    extract "Plain.TCX" (Tcx plain_ride) = Some (Ok (m, pts)) /\
    m !! "activityId" = Some (VStr "Plain.TCX").
Proof.
  assert (E : extract "Plain.TCX" (Tcx plain_ride)
              = Some (Ok ((the no_json_record
                             (default (Ok no_json_record)
                                (extract "Plain.TCX" (Tcx plain_ride)))).1,
                          (the no_json_record
                             (default (Ok no_json_record)
                                (extract "Plain.TCX" (Tcx plain_ride)))).2)))
    by by_evaluation.
  eexists _, _. split; [exact E|].
  refine (activity_id_is_file_name "Plain.TCX" (Tcx plain_ride) _ _ _ eq_refl E).
  unfold plain_name. simpl. intros H.
  repeat (destruct H as [H|H]; [discriminate H|]). exact H.
Defined.

(** ** The sport label *)

Lemma title_nonempty r : r <> "" -> title r <> "".
Proof. intros H E. by apply H, title_eq_empty. Qed.

Lemma normalize_sport_nonempty x : normalize_sport x <> "".
Proof.
  unfold normalize_sport.
  destruct (str_in _ ["cycling"; "bike"; "biking"]); [discriminate|].
  destruct (str_in _ ["running"]); [discriminate|].
  destruct x as [r|]; [|discriminate].
  destruct (String.eqb_spec r "") as [->|Hr]; [discriminate|].
  by apply title_nonempty.
Qed.

(** X8: [normalize_sport] never returns the empty string: its result is
    "Biking", "Running", "Unknown", or the title-cased form of a
    non-empty input. *)
Theorem normalize_sport_vocabulary x :
  normalize_sport x <> "" /\
  (normalize_sport x = "Biking" \/ normalize_sport x = "Running" \/
   normalize_sport x = "Unknown" \/
   exists r, x = Some r /\ r <> "" /\ normalize_sport x = title r).
Proof.
  unfold normalize_sport.
  destruct (str_in _ ["cycling"; "bike"; "biking"]); [split; [discriminate | tauto]|].
  destruct (str_in _ ["running"]); [split; [discriminate | tauto]|].
  destruct x as [r|]; [|split; [discriminate | tauto]].
  destruct (String.eqb_spec r "") as [->|Hr]; [split; [discriminate | tauto]|].
  split; [by apply title_nonempty|]. right. right. right. by exists r.
Qed.

(** ** The FIT extractor, continued *)

Lemma record_step_start st vals :
  st_meta (record_step st vals) !! "start_time" =
  match timestamp vals with
  | Some ts =>
      if truthy (get (st_meta st) "start_time") then st_meta st !! "start_time"
      else Some (VStr ts)
  | None => st_meta st !! "start_time"
  end.
Proof.
  destruct st as [[[[pts m] hr] prev] g].
  unfold record_step, st_meta. simpl.
  destruct (or_else _ _); simpl;
    destruct (cadence vals) as [k|]; try destruct (Ztruthy k);
    destruct (distance vals) as [d|]; try destruct (Qtruthy d);
    destruct (timestamp vals) as [t|];
    try destruct (truthy (get m "start_time")); simpl;
    by simplify_map_eq.
Qed.

Lemma record_step_cadence st vals :
  st_meta (record_step st vals) !! "cadence" =
  match cadence_of vals with
  | Some k => Some (VInt k)
  | None => st_meta st !! "cadence"
  end.
Proof.
  destruct st as [[[[pts m] hr] prev] g].
  unfold record_step, cadence_of, st_meta. simpl.
  destruct (or_else _ _); simpl;
    destruct (cadence vals) as [k|]; try destruct (Ztruthy k);
    destruct (distance vals) as [d|]; try destruct (Qtruthy d);
    destruct (timestamp vals) as [t|]; try destruct (negb _);
    by simplify_map_eq.
Qed.


Lemma record_loop_started rs st s :
  st_meta st !! "start_time" = Some (VStr s) -> s <> "" ->
  st_meta (fold_left record_step rs st) !! "start_time" = Some (VStr s).
Proof.
  intros H Hs. revert st H; induction rs as [|r rs IH]; intros st H; simpl;
    [exact H|].
  apply IH. rewrite record_step_start. unfold get. rewrite H. simpl.
  rewrite (eqb_empty_false s Hs). simpl. by destruct (timestamp r).
Qed.

Lemma record_loop_start rs st :
  Forall (fun r => timestamp r <> Some "") rs ->
  st_meta st !! "start_time" = Some VNone ->
  st_meta (fold_left record_step rs st) !! "start_time"
  = Some (from_option VStr VNone (head (omap timestamp rs))).
Proof.
  intros Hall. revert st; induction Hall as [|r rs Hr Hall IH]; intros st H; simpl;
    [exact H|].
  destruct (timestamp r) as [ts|] eqn:Et.
  - simpl. apply record_loop_started; [|congruence].
    rewrite record_step_start, Et. unfold get. by rewrite H.
  - apply IH. by rewrite record_step_start, Et.
Qed.

Lemma record_loop_cadence rs st :
  st_meta (fold_left record_step rs st) !! "cadence" =
  match last (omap cadence_of rs) with
  | Some k => Some (VInt k)
  | None => st_meta st !! "cadence"
  end.
Proof.
  revert st; induction rs as [|r rs IH]; intros st; simpl; [reflexivity|].
  rewrite IH, record_step_cadence.
  destruct (cadence_of r) as [k|]; simpl; [|reflexivity].
  rewrite last_cons.
  change (list_omap _ _ cadence_of rs) with (omap cadence_of rs).
  by destruct (last (omap cadence_of rs)).
Qed.


Lemma fit_first_meta path k :
  In k fit_keys -> k <> "activityId" ->
  (<["activityId" := VStr (basename path)]>
     (fold_left (fun m k => <[k := VNone]> m) fit_keys (∅ : Meta))) !! k = Some VNone.
Proof.
  intros Hin Hk. simpl in Hin.
  repeat (destruct Hin as [<-|Hin]; [by simplify_map_eq|]). done.
Qed.

(** X9: the FIT extractor sets start_time to the first timestamp among
    the record messages (first wins), and leaves it null when no record
    message has one. *)
Theorem fit_start_time_first_wins path gz f m pts :
  Forall (fun r => timestamp r <> Some "") (records f) ->
  parse_fit path gz (Fit gz f) = Ok (m, pts) ->
  m !! "start_time" = Some (from_option VStr VNone (head (omap timestamp (records f)))).
Proof.
  intros Hts H.
  rewrite (parse_fit_untouched path gz f m pts "start_time"); [|simpl; tauto | exact H].
  rewrite session_loop_other by done.
  apply record_loop_start; [exact Hts|].
  unfold st_meta. simpl fst. simpl snd. apply fit_first_meta; [simpl; tauto | done].
Qed.

(** X10: the FIT extractor sets cadence to the latest cadence value,
    among the record messages in stream order, that is neither absent nor
    zero (overwriting, not averaging), and leaves it null when there is
    none. *)
Theorem fit_cadence_last_wins path gz f m pts :
  parse_fit path gz (Fit gz f) = Ok (m, pts) ->
  m !! "cadence" = Some (from_option VInt VNone (last (omap cadence_of (records f)))).
Proof.
  intros H.
  rewrite (parse_fit_untouched path gz f m pts "cadence"); [|simpl; tauto | exact H].
  rewrite session_loop_other by done.
  rewrite record_loop_cadence.
  destruct (last _); [reflexivity|].
  unfold st_meta. simpl fst. simpl snd. apply fit_first_meta; [simpl; tauto | done].
Qed.


Lemma fit_start_time_first_wins_witness :
  exists m pts,
    parse_fit "raw/spin.fit" false (Fit false spin) = Ok (m, pts) /\
    m !! "start_time" = Some (VStr "2024-05-01T06:00:00").
Proof.
  returned (parse_fit "raw/spin.fit" false (Fit false spin)) no_record.
  refine (fit_start_time_first_wins "raw/spin.fit" false spin _ _ _ Ecall).
  repeat constructor; discriminate.
Defined.

Lemma fit_cadence_last_wins_witness :
  exists m pts,
    parse_fit "raw/spin.fit" false (Fit false spin) = Ok (m, pts) /\
    m !! "cadence" = Some (VInt 90).
Proof.
  returned (parse_fit "raw/spin.fit" false (Fit false spin)) no_record.
  exact (fit_cadence_last_wins "raw/spin.fit" false spin _ _ Ecall).
Defined.


Lemma session_step_duration m v :
  session_step m v !! "duration_s" =
  match elapsed_of v with
  | Some t => if truthy (get m "duration_s") then m !! "duration_s" else Some (VFloat t)
  | None => m !! "duration_s"
  end.
Proof.
  unfold session_step, elapsed_of, get.
  destruct (sport v) as [s|]; [destruct (truthy (VStr s) && _)|];
    rewrite ?lookup_insert_ne by done;
    (destruct (total_elapsed_time v) as [t|]; [destruct (Qtruthy t)|]);
    simpl; try destruct (truthy (default VNone (m !! "duration_s"))); simpl;
    (destruct (total_calories v) as [k|]; [destruct (Ztruthy k && _)|]);
    by simplify_map_eq.
Qed.

Lemma session_step_calories m v :
  session_step m v !! "calories" =
  match calories_of v with
  | Some k => if truthy (get m "calories") then m !! "calories" else Some (VInt k)
  | None => m !! "calories"
  end.
Proof.
  unfold session_step, calories_of, get.
  destruct (sport v) as [s|]; [destruct (truthy (VStr s) && _)|];
    (destruct (total_elapsed_time v) as [t|]; [destruct (Qtruthy t && _)|]);
    rewrite ?lookup_insert_ne by done;
    (destruct (total_calories v) as [k|]; [destruct (Ztruthy k)|]);
    simpl; try destruct (truthy (default VNone (m !! "calories"))); simpl;
    by simplify_map_eq.
Qed.

Lemma session_step_sport m v :
  session_step m v !! "sport" =
  match sport_of v with
  | Some s =>
      if truthy (get m "sport") then m !! "sport"
      else Some (VStr (normalize_sport (Some s)))
  | None => m !! "sport"
  end.
Proof.
  unfold session_step, sport_of, get.
  destruct (sport v) as [s|]; simpl; [destruct (String.eqb s "")|]; simpl;
    try destruct (truthy (default VNone (m !! "sport"))); simpl;
    (destruct (total_elapsed_time v) as [t|]; [destruct (Qtruthy t && _)|]);
    (destruct (total_calories v) as [k|]; [destruct (Ztruthy k && _)|]);
    by simplify_map_eq.
Qed.

(** A key set to a truthy value stays as it is; a null key takes the
    first value on offer. *)
Lemma first_wins {A} (step : Meta -> A -> Meta) (offer : A -> option pyval) k :
  (forall m a, step m a !! k =
     match offer a with
     | Some x => if truthy (get m k) then m !! k else Some x
     | None => m !! k
     end) ->
  (forall a x, offer a = Some x -> truthy x = true) ->
  forall l m,
    m !! k = Some VNone ->
    fold_left step l m !! k = Some (default VNone (head (omap offer l))).
Proof.
  intros Hstep Htruthy.
  assert (Hkeep : forall l m x, m !! k = Some x -> truthy x = true ->
                                fold_left step l m !! k = Some x).
  { induction l as [|a l IH]; intros m x Hm Hx; simpl; [exact Hm|].
    apply IH; [|exact Hx]. rewrite Hstep. unfold get. rewrite Hm. simpl. rewrite Hx.
    by destruct (offer a). }
  induction l as [|a l IH]; intros m Hm; [exact Hm|].
  cbn [fold_left]. rewrite omap_cons_option_list.
  destruct (offer a) as [x|] eqn:Ea; simpl.
  - apply Hkeep; [|by apply (Htruthy a)].
    rewrite Hstep, Ea. unfold get. by rewrite Hm.
  - apply IH. by rewrite Hstep, Ea.
Qed.

(** X12: the FIT extractor takes duration_s, calories and sport from the
    first session message that reports a value that is not zero (not
    empty), the sport normalised; later session messages do not
    overwrite them, and a field no session message reports stays null. *)
Theorem fit_sessions_first_win path gz f m pts :
  parse_fit path gz (Fit gz f) = Ok (m, pts) ->
  m !! "duration_s"
    = Some (from_option VFloat VNone (head (omap elapsed_of (sessions f)))) /\
  m !! "calories"
    = Some (from_option VInt VNone (head (omap calories_of (sessions f)))) /\
  m !! "sport"
    = Some (from_option (fun s => VStr (normalize_sport (Some s))) VNone
              (head (omap sport_of (sessions f)))).
Proof.
  intros H.
  rewrite (parse_fit_untouched path gz f m pts "duration_s"); [|simpl; tauto | exact H].
  rewrite (parse_fit_untouched path gz f m pts "calories"); [|simpl; tauto | exact H].
  rewrite (parse_fit_untouched path gz f m pts "sport"); [|simpl; tauto | exact H].
  set (m1 := st_meta _).
  assert (Hnull : forall k, In k ["duration_s"; "calories"; "sport"] ->
                            m1 !! k = Some VNone).
  { intros k Hk. unfold m1. simpl in Hk.
    rewrite record_loop_other by (intros ->; intuition discriminate).
    unfold st_meta. simpl fst. simpl snd.
    apply fit_first_meta; [simpl; tauto | intros ->; intuition discriminate]. }
  split; [|split].
  - rewrite (first_wins session_step (fun v => VFloat <$> elapsed_of v) "duration_s").
    + f_equal. clear. induction (sessions f) as [|v l IH]; [reflexivity|].
      rewrite !omap_cons_option_list. destruct (elapsed_of v); simpl; [reflexivity|exact IH].
    + intros m' v. rewrite session_step_duration. by destruct (elapsed_of v).
    + intros v x. unfold elapsed_of.
      destruct (total_elapsed_time v) as [t|]; [|discriminate].
      destruct (Qtruthy t) eqn:Et; [|discriminate]. by intros [= <-].
    + apply Hnull. simpl. tauto.
  - rewrite (first_wins session_step (fun v => VInt <$> calories_of v) "calories").
    + f_equal. clear. induction (sessions f) as [|v l IH]; [reflexivity|].
      rewrite !omap_cons_option_list. destruct (calories_of v); simpl; [reflexivity|exact IH].
    + intros m' v. rewrite session_step_calories. by destruct (calories_of v).
    + intros v x. unfold calories_of.
      destruct (total_calories v) as [t|]; [|discriminate].
      destruct (Ztruthy t) eqn:Et; [|discriminate]. by intros [= <-].
    + apply Hnull. simpl. tauto.
  - rewrite (first_wins session_step
               (fun v => (fun s => VStr (normalize_sport (Some s))) <$> sport_of v) "sport").
    + f_equal. clear. induction (sessions f) as [|v l IH]; [reflexivity|].
      rewrite !omap_cons_option_list. destruct (sport_of v); simpl; [reflexivity|exact IH].
    + intros m' v. rewrite session_step_sport. by destruct (sport_of v).
    + intros v x. destruct (sport_of v) as [s|]; [|discriminate].
      intros [= <-]. simpl. apply negb_true_iff, String.eqb_neq.
      apply normalize_sport_nonempty.
    + apply Hnull. simpl. tauto.
Qed.

Lemma fit_sessions_first_win_witness :
  exists m pts,
    parse_fit "raw/spin.fit" false (Fit false spin) = Ok (m, pts) /\
    m !! "duration_s" = Some (VFloat 1800) /\
    m !! "calories" = Some (VInt 300) /\
    m !! "sport" = Some (VStr "Biking").
Proof.
  returned (parse_fit "raw/spin.fit" false (Fit false spin)) no_record.
  exact (fit_sessions_first_win "raw/spin.fit" false spin _ _ Ecall).
Defined.

(** ** The GPX extractor *)

(** X13: when [parse_gpx] returns, the coordinate sequence holds the
    (longitude, latitude) of all points of all segments of all tracks in
    document order; start_time is the time of the first point of the
    first segment of the first track, distance_m the 2D length [gpxpy]
    computes, and sport is "Running" when the lower-cased path contains
    "run" and "Biking" otherwise. *)
Theorem gpx_record path c m pts :
  parse_gpx path c = Ok (m, pts) ->
  exists g p t,
    c = Gpx g /\
    gpx_first_point g = Some p /\ gp_time p = Some t /\
    pts = gpx_points g /\
    m !! "start_time" = Some (VStr t) /\
    m !! "distance_m" = Some (VFloat (length_2d g)) /\
    m !! "sport"
      = Some (VStr (if contains "run" (lower path) then "Running" else "Biking")).
Proof.
  unfold parse_gpx. intros H.
  invert_bind H. rename x into g.
  assert (Hc : c = Gpx g).
  { unfold gpx_parse in E. destruct c; try discriminate E. by injection E as ->. }
  invert_bind H. rename x into p. invert_bind H. rename x into t.
  inversion H; subst m pts; clear H.
  exists g, p, t. split; [exact Hc|].
  split.
  { unfold gpx_first_point.
    destruct (tracks g) as [|[|[|q seg] segs] trs]; try discriminate E0.
    by injection E0 as ->. }
  split; [by destruct (gp_time p); [injection E1 as ->|discriminate E1]|].
  split; [reflexivity|].
  repeat split; simplify_map_eq; [reflexivity .. | ].
  by destruct (contains "run" (lower path)).
Qed.

Lemma gpx_record_witness :
  exists m pts,
    parse_gpx "raw/Morning_Run.gpx" (Gpx two_tracks) = Ok (m, pts) /\
    pts = [(1, 2); (3, 4); (5, 6); (7, 8)]%Q /\
    m !! "sport" = Some (VStr "Running").
Proof.
  returned (parse_gpx "raw/Morning_Run.gpx" (Gpx two_tracks)) no_record.
  destruct (gpx_record "raw/Morning_Run.gpx" (Gpx two_tracks) _ _ Ecall)
    as (g & p & t & Hc & _ & _ & Hpts & _ & _ & Hsport).
  injection Hc as <-. split; [exact Hpts | exact Hsport].
Defined.

(** X14: [parse_gpx] raises IndexError as soon as the first track has no
    segment or its first segment has no point, whatever the other tracks
    and segments hold (and on a document without tracks), and
    AttributeError when the first point has no time. *)
Theorem gpx_needs_a_first_timed_point path g :
  (gpx_first_point g = None ->
   parse_gpx path (Gpx g) = Raise (Exn "IndexError" "list index out of range")) /\
  (forall p, gpx_first_point g = Some p -> gp_time p = None ->
   parse_gpx path (Gpx g)
     = Raise (Exn "AttributeError" "'NoneType' object has no attribute 'isoformat'")).
Proof.
  unfold parse_gpx, gpx_first_point. simpl. split.
  - intros H. by destruct (tracks g) as [|[|[|q seg] segs] trs].
  - intros p H Ht.
    destruct (tracks g) as [|[|[|q seg] segs] trs]; try discriminate H.
    injection H as ->. simpl. by rewrite Ht.
Qed.

Lemma gpx_needs_a_first_timed_point_witness :
  gpx_points empty_first_track = [(1, 2)]%Q /\
  parse_gpx "raw/a.gpx" (Gpx empty_first_track)
    = Raise (Exn "IndexError" "list index out of range").
Proof.
  split; [reflexivity|].
  exact (proj1 (gpx_needs_a_first_timed_point "raw/a.gpx" empty_first_track) eq_refl).
Defined.

(** ** The TCX extractor of [preprocess_tcx], continued *)





(** X16: unlike [normalise_strava], [preprocess_tcx] parses a TCX
    document that has no Lap, with or without an Activity element: the
    record has zero totals, no heart rate, pace, gain or cadence, and no
    coordinates, so that [main] leaves it out of both outputs. *)
Theorem preprocess_accepts_lapless_document name doc :
  Laps doc = [] ->
  exists d,
    PreprocessTcx.parse_tcx name (Tcx doc) = Ok d /\
    PreprocessTcx.coordinates d = [] /\
    is_line d = false /\
    (PreprocessTcx.distance_m (PreprocessTcx.fields d) == 0)%Q /\
    (PreprocessTcx.duration_s (PreprocessTcx.fields d) == 0)%Q /\
    PreprocessTcx.avg_hr (PreprocessTcx.fields d) = None /\
    PreprocessTcx.avg_pace_s (PreprocessTcx.fields d) = None /\
    PreprocessTcx.elevation_gain_m (PreprocessTcx.fields d) = None /\
    PreprocessTcx.start_time (PreprocessTcx.fields d) = None.
Proof.
  intros Hl. unfold PreprocessTcx.parse_tcx. simpl. rewrite Hl. simpl.
  eexists. split; [reflexivity|]. simpl. repeat split; reflexivity.
Qed.

Lemma preprocess_accepts_lapless_document_witness :
  exists d,
    PreprocessTcx.parse_tcx "empty.tcx" (Tcx {| Activity := None; Laps := [] |}) = Ok d /\
    PreprocessTcx.coordinates d = [] /\
    is_line d = false /\
    PreprocessTcx.avg_pace_s (PreprocessTcx.fields d) = None.
Proof.
  destruct (preprocess_accepts_lapless_document "empty.tcx"
              {| Activity := None; Laps := [] |} eq_refl)
    as (d & E & Hc & Hl & _ & _ & _ & Hp & _).
  exists d. split; [exact E|]. split; [exact Hc|]. split; [exact Hl | exact Hp].
Defined.

(** ** The stem of a file name *)

Lemma rfind_dot_tcx x :
  PreprocessTcx.rfind_dot (x +:+ ".tcx") = Some (String.length x).
Proof.
  induction x as [|c x IH]; [reflexivity|].
  rewrite append_cons. cbn [PreprocessTcx.rfind_dot String.length]. by rewrite IH.
Qed.

Lemma substring_prefix (x y : string) :
  substring 0 (String.length x) (x +:+ y) = x.
Proof.
  induction x as [|c x IH]; [by destruct y|].
  rewrite append_cons. cbn [String.length substring]. by rewrite IH.
Qed.

Lemma length_append (x y : string) :
  String.length (x +:+ y) = (String.length x + String.length y)%nat.
Proof.
  induction x as [|c x IH]; [reflexivity|].
  rewrite append_cons. cbn [String.length]. by rewrite IH.
Qed.

Lemma stem_tcx x : x <> "" -> PreprocessTcx.stem (x +:+ ".tcx") = x.
Proof.
  intros Hx. unfold PreprocessTcx.stem.
  rewrite rfind_dot_tcx, length_append.
  assert (Hlen : (0 < String.length x)%nat) by (destruct x; [done | simpl; lia]).
  replace ((0 <? String.length x)%nat) with true by (symmetry; by apply Nat.ltb_lt).
  replace ((String.length x <? String.length x + String.length ".tcx" - 1)%nat)
    with true by (symmetry; apply Nat.ltb_lt; simpl; lia).
  simpl andb. cbv iota. apply substring_prefix.
Qed.

Lemma substring_whole (s : string) : substring 0 (String.length s) s = s.
Proof. induction s as [|c s IH]; [reflexivity|]. simpl. by rewrite IH. Qed.

Lemma substring_split (s : string) k :
  (k <= String.length s)%nat ->
  s = substring 0 k s +:+ substring k (String.length s - k) s.
Proof.
  revert k; induction s as [|c s IH]; intros k Hk.
  - simpl in Hk. by replace k with 0%nat by lia.
  - destruct k as [|k].
    + rewrite Nat.sub_0_r, substring_whole.
      change (substring 0 0 (String c s)) with "". by rewrite append_empty.
    + simpl in Hk. cbn [substring String.length]. rewrite append_cons.
      f_equal. rewrite Nat.sub_succ. apply IH. lia.
Qed.

Lemma endswith_append s suffix :
  endswith s suffix = true -> exists x, s = x +:+ suffix.
Proof.
  unfold endswith. intros H. apply andb_true_iff in H as [Hle Heq].
  apply Nat.leb_le in Hle. apply String.eqb_eq in Heq.
  exists (substring 0 (String.length s - String.length suffix) s).
  pose proof (substring_split s (String.length s - String.length suffix)) as Hs.
  replace (String.length s - (String.length s - String.length suffix))%nat
    with (String.length suffix) in Hs by lia.
  rewrite Heq in Hs. apply Hs. lia.
Qed.

(** X17: [preprocess_tcx] names an activity by its file name without the
    final ".tcx": for every globbed file other than one named exactly
    ".tcx", the activityId followed by ".tcx" is the file name. *)
Theorem preprocess_activity_id_is_stem name c d :
  endswith name ".tcx" = true -> name <> ".tcx" ->
  PreprocessTcx.parse_tcx name c = Ok d ->
  PreprocessTcx.activityId (PreprocessTcx.fields d) +:+ ".tcx" = name.
Proof.
  intros Hend Hname H.
  assert (Hid : PreprocessTcx.activityId (PreprocessTcx.fields d)
                = PreprocessTcx.stem name).
  { unfold PreprocessTcx.parse_tcx in H. invert_bind H. invert_bind H.
    destruct (PreprocessTcx.samples x0) as [[[? ?] ?] ?]. by inversion H. }
  rewrite Hid. apply endswith_append in Hend as [x ->].
  rewrite stem_tcx; [reflexivity|]. intros ->. by apply Hname.
Qed.

Lemma preprocess_activity_id_is_stem_witness :
  exists d,
    PreprocessTcx.parse_tcx "2024.05.01.tcx" (Tcx plain_ride) = Ok d /\
    PreprocessTcx.activityId (PreprocessTcx.fields d) +:+ ".tcx" = "2024.05.01.tcx".
Proof.
  assert (E : PreprocessTcx.parse_tcx "2024.05.01.tcx" (Tcx plain_ride)
              = Ok (the no_data
                      (PreprocessTcx.parse_tcx "2024.05.01.tcx" (Tcx plain_ride))))
    by by_evaluation.
  eexists. split; [exact E|].
  refine (preprocess_activity_id_is_stem "2024.05.01.tcx" _ _ eq_refl _ E).
  discriminate.
Defined.

(** ** When the extractors return *)

Lemma returns_Ok {A} (a : A) : returns (Ok a).
Proof. by exists a. Qed.


Lemma returns_bind {A B} (r : result A) (k : A -> result B) :
  returns (r ≫= k) <-> exists a, r = Ok a /\ returns (k a).
Proof.
  split.
  - intros [b H]. apply bind_Ok in H as (a & Ha & H).
    exists a. split; [exact Ha | by exists b].
  - intros (a & -> & H). exact H.
Qed.

Lemma returns_bind_both {A B} (r : result A) (k : A -> result B) :
  (forall a, returns (k a)) -> returns (r ≫= k) <-> returns r.
Proof.
  intros Hk. rewrite returns_bind. split.
  - intros (a & Ha & _). by exists a.
  - intros [a Ha]. exists a. split; [exact Ha | apply Hk].
Qed.







Lemma forallb_flat_map {A B} (f : A -> list B) (p : B -> bool) l :
  forallb p (flat_map f l) = forallb (fun a => forallb p (f a)) l.
Proof.
  induction l as [|a l IH]; [reflexivity|].
  simpl. by rewrite forallb_app, IH.
Qed.









(** X20: [load_json_meta] returns a record exactly for the files that
    hold a JSON object whose sport is absent, a string, or falsy (null,
    false, 0, an empty list or object); any other content raises: text
    that is not JSON, a JSON value that is not an object, or a sport that
    is a non-zero number, true, or a non-empty list or object. *)
Theorem json_accepted path c :
  returns (load_json_meta path c) <-> json_readable c = true.
Proof.
  unfold json_readable. split.
  - intros [[m pts] H].
    apply load_json_meta_Ok in H as (items & sp & -> & Hs & _ & _).
    unfold get, normalize_sport_val in Hs.
    destruct (dict_of items !! "sport") as [v|]; [|reflexivity].
    simpl in Hs. destruct v; try reflexivity;
      (destruct (truthy _) eqn:Ht in Hs; [discriminate Hs | by rewrite Ht]).
  - destruct c as [| | |v|]; try discriminate.
    destruct v as [| | | | | |items]; try discriminate.
    intros H. unfold load_json_meta.
    change (json_load (Json (VDict items))) with (Ok (VDict items)).
    apply returns_bind. eexists. split; [reflexivity|].
    apply returns_bind. eexists. split; [reflexivity|].
    apply returns_bind_both; [intros sp; apply returns_Ok|].
    unfold get, normalize_sport_val.
    destruct (dict_of items !! "sport") as [v|]; [|apply returns_Ok].
    simpl. destruct v; try apply returns_Ok;
      (destruct (truthy _); [discriminate H | apply returns_Ok]).
Qed.

(** ** Sport and start time of a TCX activity *)

(** X21: the record [normalise_strava] extracts from a TCX document takes
    its sport from the Sport attribute of the Activity element, normalised
    ("Unknown" stands for a missing attribute), and its start_time from
    the StartTime attribute of the first lap alone: it is null when that
    lap has none, whatever the later laps have.  The record has no
    cadence key. *)
Theorem tcx_sport_and_start_time path doc m pts :
  parse_tcx path (Tcx doc) = Ok (m, pts) ->
  exists a lap0,
    Activity doc = Some a /\ head (Laps doc) = Some lap0 /\
    m !! "sport" = Some (VStr (normalize_sport (Some (default "Unknown" a)))) /\
    m !! "start_time" = Some (opt_str (lap_StartTime lap0)) /\
    m !! "cadence" = None.
Proof.
  unfold parse_tcx. intros H.
  invert_bind H. injection E as <-.
  invert_bind H. rename x into raw_sport.
  destruct (Activity doc) as [a|]; [|discriminate E]. injection E as <-.
  cbv zeta in H.
  invert_bind H. invert_bind H. invert_bind H. invert_bind H. invert_bind H.
  invert_bind H. destruct x4 as [[pts' prev] g].
  invert_bind H. rename x4 into lap0.
  inversion H; subst m pts'; clear H.
  exists a, lap0. split; [reflexivity|].
  split; [by destruct (Laps doc); inversion E5|].
  repeat split; by simplify_map_eq.
Qed.

Lemma tcx_sport_and_start_time_witness :
  exists m pts,
    parse_tcx "raw/plain.tcx" (Tcx plain_ride) = Ok (m, pts) /\
    m !! "sport" = Some (VStr "Biking") /\
    m !! "start_time" = Some (VStr "2024-05-01T06:00:00Z") /\
    m !! "cadence" = None.
Proof.
  returned (parse_tcx "raw/plain.tcx" (Tcx plain_ride)) no_record.
  destruct (tcx_sport_and_start_time "raw/plain.tcx" plain_ride _ _ Ecall)
    as (a & lap0 & Ha & Hl & Hs & Ht & Hc).
  injection Ha as <-. injection Hl as <-.
  split; [exact Hs|]. split; [exact Ht | exact Hc].
Defined.
